(** * Drawdown / put-selling backtest: a shallow embedding of [main.py]

    The development follows the source file top to bottom:
    - [fetch_daily_closes] and the worker [_one] of [fetch_all_closes];
    - [fetch_all_closes] (fan-out, collection in completion order,
      [pd.concat(...).sort_index()]);
    - [analyze_ticker] (drawdown detection, option-chain matching,
      implied-volatility filter, outcome evaluation);
    - the live part of [main] (the drop-signal table).

    Python floats are IEEE-754 binary64 numbers and are modelled by the
    kernel's primitive floats, which are the same numbers with the same
    rounding.  Timestamps are the provider's epoch milliseconds, kept as
    integers ([pd.to_datetime(unit="ms")] is injective and monotone, so a
    label is identified with its millisecond count); calendar dates are day
    numbers counted from 1970-01-01. *)

From Stdlib Require Import ZArith List String Ascii Bool Lia Floats.
From Stdlib Require Import Permutation Sorted DecimalString.
From Stdlib Require Uint63.
Import ListNotations.

Open Scope Z_scope.

(** ** Exceptions and results *)

Inductive exn : Type :=
| HTTPError (status : Z)
| ConnectionError
| JSONDecodeError
| RuntimeError (msg : string)
| KeyError (key : string)
| ValueError (msg : string)
| IndexError
| InvalidIndexError.

Inductive result (A : Type) : Type :=
| Ok (a : A)
| Raise (e : exn).

Arguments Ok {A} a.
Arguments Raise {A} e.

Definition bind {A B : Type} (r : result A) (k : A -> result B) : result B :=
  match r with
  | Ok a => k a
  | Raise e => Raise e
  end.

Notation "x <- c ;; k" := (bind c (fun x => k))
  (at level 61, c at next level, right associativity).

Fixpoint mapM {A B : Type} (f : A -> result B) (l : list A) : result (list B) :=
  match l with
  | [] => Ok []
  | x :: t => y <- f x ;; ys <- mapM f t ;; Ok (y :: ys)
  end.

(** ** pandas: the fragment of [Series] the program uses *)

Record Series : Type := mkSeries {
  name : string;
  items : list (Z * float)
}.

Definition index (s : Series) : list Z := map fst (items s).
Definition values (s : Series) : list float := map snd (items s).

(** [Series.dropna()] *)
Definition dropna (s : Series) : Series :=
  mkSeries (name s) (filter (fun p => negb (is_nan (snd p))) (items s)).

(** [Series.shift(n)]: same length, the first [n] cells are NaN. *)
Definition shift (n : nat) (vals : list float) : list float :=
  firstn (List.length vals) (repeat nan n ++ vals).

(** [Series.pct_change(n)] is [s / s.shift(n) - 1] (the forward fill that
    older pandas applies first does nothing on a series without NaN, and
    the program only calls it after [dropna]). *)
Definition pct_change (n : nat) (s : Series) : Series :=
  mkSeries (name s)
    (combine (index s)
       (map (fun xy => (fst xy / snd xy - 1)%float)
            (combine (values s) (shift n (values s))))).

(** The literal [-0.10]. *)
Definition drop_threshold : float := (-0x1.999999999999ap-4)%float.

(** [pct4 <= -0.10] *)
Definition drop_mask (s : Series) : list bool :=
  map (fun v => (v <=? drop_threshold)%float) (values (pct_change 4 s)).

(** [ser[mask]]: boolean indexing. *)
Definition boolean_index {A : Type} (mask : list bool) (l : list A) : list A :=
  map snd (filter fst (combine mask l)).

(** [pct4[pct4 <= -0.10].index] *)
Definition drop_dates (s : Series) : list Z :=
  map fst (boolean_index (drop_mask s) (items (pct_change 4 s))).

(** [DatetimeIndex.sort_index()]: rows in ascending label order; rows with
    equal labels keep their relative order. *)
Fixpoint insert_row (r : Z * list float) (l : list (Z * list float))
  : list (Z * list float) :=
  match l with
  | [] => [r]
  | h :: t => if fst r <=? fst h then r :: l else h :: insert_row r t
  end.

Record DataFrame : Type := mkFrame {
  columns : list string;
  rows : list (Z * list float)
}.

Definition sort_index (df : DataFrame) : DataFrame :=
  mkFrame (columns df) (fold_right insert_row [] (rows df)).

(** Labels in order of first appearance. *)
Fixpoint union_index (seen : list Z) (l : list Z) : list Z :=
  match l with
  | [] => []
  | x :: t =>
      if existsb (Z.eqb x) seen then union_index seen t
      else x :: union_index (x :: seen) t
  end.

Fixpoint has_duplicates (l : list Z) : bool :=
  match l with
  | [] => false
  | x :: t => existsb (Z.eqb x) t || has_duplicates t
  end.

Definition same_index (a b : list Z) : bool :=
  (Nat.eqb (List.length a) (List.length b))
  && forallb (fun xy => fst xy =? snd xy) (combine a b).

(** The cell of a series at a label; NaN marks an absent cell. *)
Definition cell (s : Series) (lbl : Z) : float :=
  match find (fun p => fst p =? lbl) (items s) with
  | Some p => snd p
  | None => nan
  end.

(** [pd.concat(series, axis=1, join="outer")].  With no series pandas raises
    [ValueError("No objects to concatenate")].  Otherwise the columns are the
    series in list order and the row index is the union of their labels.  A
    series repeating a label can only be placed when every index is the same
    list (the rows are then taken position by position); pandas refuses to
    re-index it otherwise. *)
Definition pd_concat (series : list Series) : result DataFrame :=
  match series with
  | [] => Raise (ValueError "No objects to concatenate")
  | s0 :: rest =>
      if existsb (fun s => has_duplicates (index s)) series then
        if forallb (fun s => same_index (index s) (index s0)) rest then
          Ok (mkFrame (map name series)
                (combine (index s0)
                   (map (fun i => map (fun s => nth i (values s) nan) series)
                        (seq 0 (List.length (items s0))))))
        else Raise InvalidIndexError
      else
        Ok (mkFrame (map name series)
              (map (fun lbl => (lbl, map (fun s => cell s lbl) series))
                   (union_index [] (flat_map index series))))
  end.

Fixpoint position (sym : string) (cols : list string) : option nat :=
  match cols with
  | [] => None
  | c :: t => if String.eqb sym c then Some O
              else option_map S (position sym t)
  end.

(** [df[sym]] for a column label that occurs once (the ticker lists of the
    program have no repeated symbol). *)
Definition column (df : DataFrame) (sym : string) : result Series :=
  match position sym (columns df) with
  | None => Raise (KeyError sym)
  | Some j => Ok (mkSeries sym (map (fun r => (fst r, nth j (snd r) nan)) (rows df)))
  end.

(** [s.loc[dt]]: the value when the label occurs once, the sub-series of
    all its values when it is repeated. *)
Inductive located : Type :=
| Scalar (v : float)
| SubSeries (vs : list float).

Definition loc (s : Series) (dt : Z) : result located :=
  match filter (fun p => fst p =? dt) (items s) with
  | [] => Raise (KeyError "loc")
  | [p] => Ok (Scalar (snd p))
  | ps => Ok (SubSeries (map snd ps))
  end.

(** ** Python built-ins *)

(** [min(l, key=key)]: the first element is the candidate; a later element
    replaces it only when its key is strictly smaller ([key(x) < key(best)]),
    so the first minimum wins.  Both the key function and the comparison
    may raise. *)
Section PyMin.
Context {A K : Type}.
Variable ltb : K -> K -> result bool.
Variable key : A -> result K.

Fixpoint min_loop (best : A) (bk : K) (l : list A) : result A :=
  match l with
  | [] => Ok best
  | x :: t =>
      kx <- key x ;;
      c <- ltb kx bk ;;
      if c then min_loop x kx t else min_loop best bk t
  end.

Definition py_min (l : list A) : result A :=
  match l with
  | [] => Raise (ValueError "min() arg is an empty sequence")
  | x :: t => kx <- key x ;; min_loop x kx t
  end.
End PyMin.

(** A [dict] keeps insertion order; [d[k]] raises [KeyError] on a key that
    is not there. *)
Definition dict (V : Type) : Type := list (string * V).

Definition keys {V : Type} (d : dict V) : list string := map fst d.

Definition dict_get {V : Type} (k : string) (d : dict V) : option V :=
  option_map snd (find (fun kv => String.eqb k (fst kv)) d).

Definition getitem {V : Type} (k : string) (d : dict V) : result V :=
  match dict_get k d with
  | Some v => Ok v
  | None => Raise (KeyError k)
  end.

(** [k.split(":")[0]] *)
Fixpoint split_head (k : string) : string :=
  match k with
  | EmptyString => EmptyString
  | String c t => if Ascii.eqb c ":"%char then EmptyString else String c (split_head t)
  end.

(** ** The provider client *)

Record Candle : Type := mkCandle {
  datetime : Z;
  close : float
}.

(** The body of a price-history response: [resp.json().get("candles", [])]. *)
Record PriceJson : Type := mkPriceJson {
  candles : option (list Candle)
}.

Record Contract : Type := mkContract {
  volatility : option float
}.

Definition StrikesMap : Type := dict (list Contract).
Definition PutMap : Type := dict StrikesMap.

Record ChainJson : Type := mkChainJson {
  putExpDateMap : option PutMap
}.

(** A response object: what its two methods do. *)
Record Response (J : Type) : Type := mkResponse {
  raise_for_status : result unit;
  json : result J
}.

Arguments mkResponse {J} _ _.
Arguments raise_for_status {J} _.
Arguments json {J} _.

Record Client : Type := mkClient {
  get_price_history_every_day : string -> Z -> Z -> result (Response PriceJson);
  get_option_chain : string -> Z -> Z -> result (Response ChainJson)
}.

(** ** [fetch_daily_closes] and [_one] *)

(** [pd.DataFrame(data)]: the columns are the keys of the candle records, so
    a frame built from no candle has no column. *)
Record CandleFrame : Type := mkCandleFrame {
  cf_columns : list string;
  cf_rows : list Candle
}.

Definition candle_frame (data : list Candle) : CandleFrame :=
  match data with
  | [] => mkCandleFrame [] []
  | _ => mkCandleFrame ["open"; "high"; "low"; "close"; "volume"; "datetime"]%string data
  end.

(** [df[col]] on the frame of candles. *)
Definition frame_column {A : Type} (df : CandleFrame) (col : string)
  (field : Candle -> A) : result (list A) :=
  if existsb (String.eqb col) (cf_columns df) then Ok (map field (cf_rows df))
  else Raise (KeyError col).

(** [pd.to_datetime(ms, unit="ms")] *)
Definition to_datetime_ms (ms : Z) : Z := ms.

(** Lines 57-62 and 79-82: index the closes by timestamp, name the series. *)
Definition closes_of_frame (symbol : string) (data : list Candle) : result Series :=
  let df := candle_frame data in
  stamps <- frame_column df "datetime" datetime ;;
  let stamps := map to_datetime_ms stamps in
  closes <- frame_column df "close" close ;;
  Ok (mkSeries symbol (combine stamps closes)).

Definition candles_or_empty (js : PriceJson) : list Candle :=
  match candles js with
  | Some data => data
  | None => []
  end.

Definition fetch_daily_closes (client : Client) (symbol : string)
  (start_datetime end_datetime : Z) : result Series :=
  resp <- get_price_history_every_day client symbol start_datetime end_datetime ;;
  _ <- raise_for_status resp ;;
  js <- json resp ;;
  let data := candles_or_empty js in
  match data with
  | [] => Raise (RuntimeError ("No data for " ++ symbol))
  | _ => closes_of_frame symbol data
  end.

Definition _one (client : Client) (start_datetime end_datetime : Z)
  (sym : string) : result Series :=
  resp <- get_price_history_every_day client sym start_datetime end_datetime ;;
  _ <- raise_for_status resp ;;
  js <- json resp ;;
  let data := candles_or_empty js in
  closes_of_frame sym data.

(** ** [fetch_all_closes] *)

Definition Future : Type := (string * result Series)%type.

(** Lines 86-92: walk the futures in completion order, keep the series of
    those that succeeded, print a line for each that failed. *)
Fixpoint collect (done : list Future) : list Series * list (string * exn) :=
  match done with
  | [] => ([], [])
  | (sym, Ok s) :: t => let (ss, log) := collect t in (s :: ss, log)
  | (sym, Raise e) :: t => let (ss, log) := collect t in (ss, (sym, e) :: log)
  end.

(** [as_completed] yields the submitted futures in the order in which they
    finish; it is a parameter of the model.  The result pairs the printed
    failure lines with the outcome of the call. *)
Definition fetch_all_closes (as_completed : list Future -> list Future)
  (client : Client) (symbols : list string) (start_datetime end_datetime : Z)
  : list (string * exn) * result DataFrame :=
  let futures := map (fun s => (s, _one client start_datetime end_datetime s)) symbols in
  let (series, log) := collect (as_completed futures) in
  (log, df <- pd_concat series ;; Ok (sort_index df)).

(** ** [analyze_ticker] *)

Definition ms_per_day : Z := 86400000.

(** [ts.date()] as a day number. *)
Definition date_of (ts : Z) : Z := ts / ms_per_day.

(** [dt + timedelta(days=n)] *)
Definition add_days (ts n : Z) : Z := ts + n * ms_per_day.

(** The literal [0.60]. *)
Definition iv_threshold : float := 0x1.3333333333333p-1%float.

(** [abs(x - price_on_dt)]: a float when the price is one, a series when
    [loc] returned a series. *)
Definition distance (price : located) (x : float) : located :=
  match price with
  | Scalar p => Scalar (abs (x - p))
  | SubSeries ps => SubSeries (map (fun p => abs (x - p)) ps)
  end.

(** [a < b] in a boolean context: a comparison that yields a series has no
    truth value. *)
Definition located_ltb (a b : located) : result bool :=
  match a, b with
  | Scalar x, Scalar y => Ok (x <? y)%float
  | _, _ => Raise (ValueError "The truth value of a Series is ambiguous")
  end.

Definition int_ltb (a b : Z) : result bool := Ok (a <? b).

Definition first_item {A : Type} (l : list A) : result A :=
  match l with
  | [] => Raise IndexError
  | x :: _ => Ok x
  end.

Section Analyze.

(** Library conversions the function calls: [datetime.fromisoformat(s).date()]
    as a day number, [float(s)] and [str(x)]. *)
Variable iso_date : string -> result Z.
Variable py_float : string -> result float.
Variable py_str : float -> string.

Definition parse_key (k : string) : result Z := iso_date (split_head k).

(** Line 129: the expiration key nearest to the target date. *)
Definition nearest_expiration (exp_target : Z) (put_map : PutMap) : result string :=
  py_min int_ltb
    (fun k => d <- parse_key k ;; Ok (Z.abs (d - exp_target)))
    (keys put_map).

(** Lines 133-134: the listed strike nearest to the price. *)
Definition nearest_strike (price_on_dt : located) (strikes_map : StrikesMap)
  : result float :=
  strikes <- mapM py_float (keys strikes_map) ;;
  py_min located_ltb (fun x => Ok (distance price_on_dt x)) strikes.

(** A matched contract: the expiration key, the strike, and the first entry
    listed under [str(strike)]. *)
Record Match : Type := mkMatch {
  best_key : string;
  strike : float;
  opt : Contract
}.

(** Lines 110-135.  [None] is the [continue] of line 123. *)
Definition match_contract (client : Client) (symbol : string) (s : Series)
  (dt : Z) : result (option Match) :=
  price_on_dt <- loc s dt ;;
  let exp_target := date_of (add_days dt 30) in
  resp <- get_option_chain client symbol (date_of dt) exp_target ;;
  chain <- json resp ;;
  let put_map := match putExpDateMap chain with Some m => m | None => [] end in
  match put_map with
  | [] => Ok None
  | _ =>
      bk <- nearest_expiration exp_target put_map ;;
      strikes_map <- getitem bk put_map ;;
      x <- nearest_strike price_on_dt strikes_map ;;
      entries <- getitem (py_str x) strikes_map ;;
      o <- first_item entries ;;
      Ok (Some (mkMatch bk x o))
  end.

(** Lines 145-150: the first close on or after the expiration. *)
Definition future_prices (s : Series) (expiration : Z) : list (Z * float) :=
  filter (fun p => expiration <=? date_of (fst p)) (items s).

(** Lines 137-150 on a matched contract; the state is [(trials, successes)]. *)
Definition settle (s : Series) (m : Match) (acc : nat * nat) : result (nat * nat) :=
  let (trials, successes) := acc in
  match volatility (opt m) with
  | None => Ok (trials, successes)
  | Some iv =>
      if (iv <=? iv_threshold)%float then Ok (trials, successes)
      else
        let trials := S trials in
        expiration <- parse_key (best_key m) ;;
        match future_prices s expiration with
        | [] => Ok (trials, successes)
        | p :: _ =>
            if (strike m <? snd p)%float then Ok (trials, S successes)
            else Ok (trials, successes)
        end
  end.

(** The body of the loop over [drop_dates]. *)
Definition trigger_step (client : Client) (symbol : string) (s : Series)
  (dt : Z) (acc : nat * nat) : result (nat * nat) :=
  m <- match_contract client symbol s dt ;;
  match m with
  | None => Ok acc
  | Some m => settle s m acc
  end.

Fixpoint analyze_loop (client : Client) (symbol : string) (s : Series)
  (dts : list Z) (acc : nat * nat) : result (nat * nat) :=
  match dts with
  | [] => Ok acc
  | dt :: t =>
      acc' <- trigger_step client symbol s dt acc ;;
      analyze_loop client symbol s t acc'
  end.

Definition analyze_ticker (client : Client) (closes : Series) : result (nat * nat) :=
  let s := dropna closes in
  analyze_loop client (name closes) s (drop_dates s) (O, O).

End Analyze.

(** ** [main]: the drop-signal table *)

Definition large_caps : list string :=
  ["AAPL"; "MSFT"; "GOOGL"; "AMZN"; "META"; "TSLA"; "NVDA"; "BRK.B"; "JPM"; "JNJ";
   "V"; "PG"; "UNH"; "MA"; "HD"; "DIS"; "BAC"; "XOM"; "PFE"; "VZ";
   "CVX"; "INTC"; "NFLX"; "T"; "MRK"; "ABT"; "KO"; "WMT"; "CSCO"; "ORCL"]%string.

Definition mid_caps : list string :=
  ["APTV"; "ARNC"; "BBY"; "BXP"; "CAG"; "CF"; "CINF"; "CTAS"; "DHI"; "DLTR";
   "EBAY"; "FAST"; "FL"; "GRMN"; "GPS"; "HOG"; "JBT"; "KMX"; "LEG"; "LYB";
   "NLSN"; "RPM"; "SIG"; "SNA"; "SWN"; "TECK"; "TTWO"; "VFC"; "WAB"; "WYNN"]%string.

Definition small_caps : list string :=
  ["AKRO"; "ALRM"; "AMCX"; "ANIK"; "BANX"; "BOOM"; "BDSI"; "BOX"; "CBRL"; "CLFD";
   "DENN"; "DNUT"; "FIZZ"; "GOGO"; "HAE"; "JBSS"; "LOGI"; "MTDR"; "NATI"; "OPK";
   "QDEL"; "RUTH"; "SIMO"; "SRPT"; "TDOC"; "TREE"; "TRUP"; "VUZI"; "WIX"; "YETI"]%string.

Definition tickers : list string := large_caps ++ mid_caps ++ small_caps.

(** Line 188: the tickers that made it into the table, in ticker order. *)
Definition available (symbols : list string) (closes_df : DataFrame) : list string :=
  filter (fun t => existsb (String.eqb t) (columns closes_df)) symbols.

(** Lines 222-225: the number of positions with a 4-step drop of 10% or more. *)
Definition drop_count (series : Series) : nat :=
  List.length (filter (fun b => b) (drop_mask series)).

(** Lines 214-230: one row per available ticker with at least 5 closes. *)
Fixpoint drop_rows (closes_df : DataFrame) (symbols : list string)
  : result (list (string * nat)) :=
  match symbols with
  | [] => Ok []
  | symbol :: t =>
      col <- column closes_df symbol ;;
      let series := dropna col in
      rest <- drop_rows closes_df t ;;
      if (List.length (items series) <? 5)%nat then Ok rest
      else Ok ((symbol, drop_count series) :: rest)
  end.

(** Line 233: [pd.DataFrame(results).set_index("ticker")]; a frame built
    from no row has no column to index by. *)
Definition set_index_ticker (results : list (string * nat))
  : result (list (string * nat)) :=
  match results with
  | [] => Raise (KeyError "ticker")
  | _ => Ok results
  end.

Definition results_df (symbols : list string) (closes_df : DataFrame)
  : result (list (string * nat)) :=
  results <- drop_rows closes_df (available symbols closes_df) ;;
  set_index_ticker results.

(** [main] from the authenticated client on; [now] is [datetime.now()]. *)
Definition main (as_completed : list Future -> list Future) (client : Client)
  (now : Z) : result (list (string * nat)) :=
  let end_dt := now in
  let start_dt := add_days end_dt (- (365 * 2)) in
  closes_df <- snd (fetch_all_closes as_completed client tickers start_dt end_dt) ;;
  results_df tickers closes_df.

(** ** Concrete library conversions

    Executable instances of the three conversions [analyze_ticker] calls,
    used to run the model on concrete payloads.  Each agrees with Python on
    the inputs named in its comment; the general statements below quantify
    over the conversions instead. *)

Definition digit_of (c : ascii) : option Z :=
  let n := Z.of_nat (nat_of_ascii c) in
  if (48 <=? n) && (n <=? 57) then Some (n - 48) else None.

Fixpoint digits_value (acc : Z) (s : string) : option Z :=
  match s with
  | EmptyString => Some acc
  | String c t =>
      match digit_of c with
      | Some d => digits_value (10 * acc + d) t
      | None => None
      end
  end.

Definition number_of (s : string) : option Z :=
  match s with
  | EmptyString => None
  | _ => digits_value 0 s
  end.

Definition is_leap (y : Z) : bool :=
  ((y mod 4 =? 0) && negb (y mod 100 =? 0)) || (y mod 400 =? 0).

Definition days_in_month (y m : Z) : Z :=
  if m =? 2 then (if is_leap y then 29 else 28)
  else if (m =? 4) || (m =? 6) || (m =? 9) || (m =? 11) then 30
  else 31.

(** Day number of a civil date, counted from 1970-01-01. *)
Definition days_from_civil (y m d : Z) : Z :=
  let y' := if m <=? 2 then y - 1 else y in
  let era := y' / 400 in
  let yoe := y' - era * 400 in
  let mp := if 2 <? m then m - 3 else m + 9 in
  let doy := (153 * mp + 2) / 5 + d - 1 in
  let doe := yoe * 365 + yoe / 4 - yoe / 100 + doy in
  era * 146097 + doe - 719468.

(** [datetime.fromisoformat(s).date()] on the form [YYYY-MM-DD]. *)
Definition iso_date_ymd (s : string) : result Z :=
  let bad := Raise (ValueError "Invalid isoformat string") in
  if negb (Nat.eqb (String.length s) 10) then bad
  else if negb (String.eqb (substring 4 1 s) "-" && String.eqb (substring 7 1 s) "-") then bad
  else
    match number_of (substring 0 4 s), number_of (substring 5 2 s),
          number_of (substring 8 2 s) with
    | Some y, Some m, Some d =>
        if (1 <=? y) && (1 <=? m) && (m <=? 12) && (1 <=? d) && (d <=? days_in_month y m)
        then Ok (days_from_civil y m d)
        else bad
    | _, _, _ => bad
    end.

Definition float_of_Z (n : Z) : float := of_uint63 (Uint63.of_Z n).

Fixpoint split_dot (s : string) : string * option string :=
  match s with
  | EmptyString => (EmptyString, None)
  | String c t =>
      if Ascii.eqb c "."%char then (EmptyString, Some t)
      else let (a, b) := split_dot t in (String c a, b)
  end.

(** [float(s)] on plain decimal strings ([-]digits[.digits], at most 15
    digits in all): numerator and power of ten are exact doubles, so the
    rounded quotient is the double nearest to the decimal. *)
Definition float_of_decimal (s : string) : result float :=
  let bad := Raise (ValueError "could not convert string to float") in
  let (neg, body) :=
    match s with
    | String "-"%char t => (true, t)
    | _ => (false, s)
    end in
  let (ip, fp) := split_dot body in
  let fp := match fp with Some f => f | None => EmptyString end in
  let ds := (ip ++ fp)%string in
  if (Nat.ltb 15 (String.length ds)) then bad
  else
    match number_of ds with
    | None => bad
    | Some n =>
        let x := (float_of_Z n / float_of_Z (10 ^ Z.of_nat (String.length fp)))%float in
        Ok (if neg then (- x)%float else x)
    end.

Definition decimal (n : Z) : string :=
  NilZero.string_of_uint (N.to_uint (Z.to_N n)).

Fixpoint zeros (n : nat) : string :=
  match n with
  | O => EmptyString
  | S k => String "0"%char (zeros k)
  end.

(** Drop the zeros that end a digit string. *)
Fixpoint strip_zeros (s : string) : string :=
  match s with
  | EmptyString => EmptyString
  | String c t =>
      match strip_zeros t with
      | EmptyString => if Ascii.eqb c "0"%char then EmptyString else String c EmptyString
      | t' => String c t'
      end
  end.

(** [str(x)] as the exact decimal expansion of the double; it is Python's
    [str] on the doubles whose expansion has at most 15 significant digits
    and lies in [1e-4, 1e16), among them the integers below [10^15]. *)
Definition str_of_float (x : float) : string :=
  match Prim2SF x with
  | S754_nan => "nan"%string
  | S754_infinity false => "inf"%string
  | S754_infinity true => "-inf"%string
  | S754_zero false => "0.0"%string
  | S754_zero true => "-0.0"%string
  | S754_finite sg m e =>
      let sign := if sg then "-"%string else EmptyString in
      if 0 <=? e then (sign ++ decimal (Zpos m * 2 ^ e) ++ ".0")%string
      else
        let k := - e in
        let n := Zpos m * 5 ^ k in
        let ip := n / 10 ^ k in
        let fp := n mod 10 ^ k in
        let fs := decimal fp in
        let frac := strip_zeros (zeros (Z.to_nat k - String.length fs) ++ fs) in
        (sign ++ decimal ip ++ "." ++
           (match frac with EmptyString => "0" | _ => frac end))%string
  end.

(** ** Notions used in the statements *)



Definition is_ok {A : Type} (r : result A) : bool :=
  match r with
  | Ok _ => true
  | Raise _ => false
  end.

(** The symbols of the futures that returned a series, in list order. *)
Definition succeeded (done : list Future) : list string :=
  map fst (filter (fun f => is_ok (snd f)) done).

(** The ticker has a column and at least five closes in it. *)
Definition enough_history (df : DataFrame) (symbol : string) : bool :=
  match column df symbol with
  | Ok col => negb (List.length (items (dropna col)) <? 5)%nat
  | Raise _ => false
  end.

(** Ascending order of symbols, as Python compares strings. *)
Fixpoint ticker_sorted (l : list string) : bool :=
  match l with
  | [] => true
  | a :: t =>
      match t with
      | [] => true
      | b :: _ => String.leb a b && ticker_sorted t
      end
  end.


(** ** Worked payloads *)

Definition day (d : Z) : Z := d * ms_per_day.

(** Closes 100, 95, 90, 85, 88 on 2024-01-02 .. 2024-01-06, then 92 on
    2024-02-02. *)
Definition sample_candles : list Candle :=
  [mkCandle (day 19724) 100; mkCandle (day 19725) 95; mkCandle (day 19726) 90;
   mkCandle (day 19727) 85; mkCandle (day 19728) 88; mkCandle (day 19755) 92].

Definition sample_series : Series :=
  mkSeries "X" (map (fun c => (datetime c, close c)) sample_candles).

(** Two expirations, 25 and 35 days after the trigger of 2024-01-06. *)
Definition sample_chain : PutMap :=
  [("2024-01-31:25"%string,
     [("85.0"%string, [mkContract (Some 0.75%float)]);
      ("90.0"%string, [mkContract (Some 0.75%float); mkContract None])]);
   ("2024-02-10:35"%string,
     [("90.0"%string, [mkContract (Some 0.5%float)])])].

Definition price_response (data : list Candle) : result (Response PriceJson) :=
  Ok (mkResponse (Ok tt) (Ok (mkPriceJson (Some data)))).

Definition chain_response (put_map : PutMap) : result (Response ChainJson) :=
  Ok (mkResponse (Ok tt) (Ok (mkChainJson (Some put_map)))).

Definition sample_client : Client :=
  mkClient (fun _ _ _ => price_response sample_candles)
           (fun _ _ _ => chain_response sample_chain).

(** The same strike listed under two spellings. *)
Definition twin_chain : PutMap :=
  [("2024-01-31:25"%string,
     [("100"%string, [mkContract (Some 0.75%float)]);
      ("100.0"%string, [mkContract (Some 0.5%float)])])].

Definition twin_client : Client :=
  mkClient (fun _ _ _ => price_response sample_candles)
           (fun _ _ _ => chain_response twin_chain).

(** A provider that answers out of date order and repeats a timestamp. *)
Definition unsorted_candles : list Candle :=
  [mkCandle (day 3) 30; mkCandle (day 1) 10; mkCandle (day 1) 11].

Definition unsorted_client : Client :=
  mkClient (fun _ _ _ => price_response unsorted_candles)
           (fun _ _ _ => chain_response []).

Definition empty_client : Client :=
  mkClient (fun _ _ _ => price_response [])
           (fun _ _ _ => chain_response []).

Definition down_client : Client :=
  mkClient (fun _ _ _ => Raise ConnectionError)
           (fun _ _ _ => Raise ConnectionError).


Fixpoint ascending (l : list Z) : bool :=
  match l with
  | [] => true
  | a :: t =>
      match t with
      | [] => true
      | b :: _ => (a <=? b) && ascending t
      end
  end.

(** ** [get_client] *)

(** The exceptions [get_client] tells apart, each with its [str(...)]. *)
Inductive auth_exn : Type :=
| AuthValueError (text : string)
| AuthOAuthError (text : string)
| AuthOther (e : exn).

(** [needle in hay] on strings. *)
Fixpoint contains (needle hay : string) : bool :=
  String.prefix needle hay
  || match hay with
     | EmptyString => false
     | String _ t => contains needle t
     end.

(** What [get_client] does, in order. *)
Inductive auth_event : Type :=
| CalledEasyClient
| Printed (line : string)
| Removed (done : bool).

Section GetClient.

(** The token file and the authorization service are the world the two
    library calls act on: [auth.easy_client] returns a client or raises,
    [os.remove] succeeds or raises [OSError]. *)
Variable World : Type.
Variable Handle : Type.
Variable easy_client : World -> (Handle + auth_exn) * World.
Variable os_remove : World -> bool * World.

(** Lines 29-33 and 38-42: delete the token, ignoring [OSError], and call
    [easy_client] again outside any handler. *)
Definition delete_and_retry (line : string) (w : World)
  : (Handle + auth_exn) * World * list auth_event :=
  let (done, w1) := os_remove w in
  let (r, w2) := easy_client w1 in
  (r, w2, [Printed line; Removed done; CalledEasyClient]).

Definition get_client (w : World) : (Handle + auth_exn) * World * list auth_event :=
  let (r, w1) := easy_client w in
  match r with
  | inl c => (inl c, w1, [CalledEasyClient])
  | inr (AuthValueError text) =>
      if contains "token format has changed" text then
        let '(r2, w2, evs) := delete_and_retry "Detected old token format—deleting and retrying." w1 in
        (r2, w2, CalledEasyClient :: evs)
      else (inr (AuthValueError text), w1, [CalledEasyClient])
  | inr (AuthOAuthError text) =>
      if contains "AuthorizationCode has expired" text then
        let '(r2, w2, evs) := delete_and_retry "⚠️  Auth code expired—deleting token.json and retrying." w1 in
        (r2, w2, CalledEasyClient :: evs)
      else (inr (AuthOAuthError text), w1, [CalledEasyClient])
  | inr (AuthOther e) => (inr (AuthOther e), w1, [CalledEasyClient])
  end.

End GetClient.

(** ** [filter_large_caps] (test.py) *)

(** [info.get("marketCap", 0)]: the key is absent, holds a number, or holds
    a value that has no order with a float ([None], a string). *)
Inductive CapField : Type :=
| CapAbsent
| CapNumber (x : float)
| CapOther.

Section FilterLargeCaps.

(** [yf.Ticker(t).info] followed by the lookup, and [time.sleep]. *)
Variable info : string -> result CapField.
Variable sleep : float -> result unit.

(** The test of line 26 inside the [try]: any exception, the [TypeError]
    of the comparison included, is swallowed by [except Exception]. *)
Definition cap_passes (min_market_cap : float) (r : result CapField) : bool :=
  match r with
  | Ok CapAbsent => (min_market_cap <=? 0)%float
  | Ok (CapNumber x) => (min_market_cap <=? x)%float
  | Ok CapOther => false
  | Raise _ => false
  end.

(** The loop of lines 23-33; [naps] counts the calls of [sleep], which the
    [finally] clause makes on every ticker. *)
Fixpoint filter_loop (tickers_ : list string) (min_market_cap pause : float)
  (large : list string) (naps : nat) : result (list string) * nat :=
  match tickers_ with
  | [] => (Ok large, naps)
  | t :: rest =>
      let large := if cap_passes min_market_cap (info t) then large ++ [t] else large in
      match sleep pause with
      | Ok _ => filter_loop rest min_market_cap pause large (S naps)
      | Raise e => (Raise e, S naps)
      end
  end.

Definition filter_large_caps (tickers_ : list string)
  (min_market_cap pause : float) (max_retries : Z) : result (list string) * nat :=
  filter_loop tickers_ min_market_cap pause [] O.

End FilterLargeCaps.

(** ** Further notions used in the statements *)

Fixpoint has_colon (k : string) : bool :=
  match k with
  | EmptyString => false
  | String c t => Ascii.eqb c ":"%char || has_colon t
  end.

(** A chain whose only contract reports NaN as volatility. *)
Definition nan_chain : PutMap :=
  [("2024-01-31:25"%string, [("90.0"%string, [mkContract (Some nan)])])].

Definition nan_client : Client :=
  mkClient (fun _ _ _ => price_response sample_candles)
           (fun _ _ _ => chain_response nan_chain).

(** A chain whose expiration lists no strike, and one whose strike lists no
    contract. *)
Definition bare_client : Client :=
  mkClient (fun _ _ _ => price_response sample_candles)
           (fun _ _ _ => chain_response [("2024-01-31:25"%string, [])]).

Definition hollow_client : Client :=
  mkClient (fun _ _ _ => price_response sample_candles)
           (fun _ _ _ =>
              chain_response [("2024-01-31:25"%string, [("90.0"%string, [])])]).

(** Two tickers with different trading days, a third whose fetch fails. *)
Definition mixed_client : Client :=
  mkClient
    (fun sym _ _ =>
       if String.eqb sym "A" then
         price_response [mkCandle (day 3) 30; mkCandle (day 1) 10]
       else if String.eqb sym "B" then
         price_response [mkCandle (day 2) 20; mkCandle (day 3) 31]
       else Raise ConnectionError)
    (fun _ _ _ => chain_response []).

(** The failures [get_client] answers with a retry, and the counts of its
    actions. *)
Definition retryable (e : auth_exn) : bool :=
  match e with
  | AuthValueError text => contains "token format has changed" text
  | AuthOAuthError text => contains "AuthorizationCode has expired" text
  | AuthOther _ => false
  end.

Definition calls (evs : list auth_event) : nat :=
  List.length (filter (fun ev => match ev with CalledEasyClient => true | _ => false end) evs).

Definition removals (evs : list auth_event) : nat :=
  List.length (filter (fun ev => match ev with Removed _ => true | _ => false end) evs).

(** A market-cap source: two numbers, a missing key, a null and a failure. *)
Definition sample_info (t : string) : result CapField :=
  if String.eqb t "BIG" then Ok (CapNumber 5e9%float)
  else if String.eqb t "SMALL" then Ok (CapNumber 1e9%float)
  else if String.eqb t "NOCAP" then Ok CapAbsent
  else if String.eqb t "NULL" then Ok CapOther
  else Raise ConnectionError.

(** [time.sleep] refuses a negative length. *)
Definition sample_sleep (seconds : float) : result unit :=
  if (0 <=? seconds)%float then Ok tt
  else Raise (ValueError "sleep length must be non-negative").

(** * Properties *)

(** ** The library conversions on examples *)

Example days_from_civil_epoch : days_from_civil 1970 1 1 = 0.
Proof. reflexivity. Qed.

Example iso_date_ymd_2024 : iso_date_ymd "2024-02-29" = Ok 19782.
Proof. reflexivity. Qed.

Example float_of_decimal_100 :
  float_of_decimal "100" = Ok 100%float /\ float_of_decimal "100.0" = Ok 100%float
  /\ float_of_decimal "97.5" = Ok 97.5%float.
Proof. repeat split; vm_compute; reflexivity. Qed.

Example str_of_float_100 :
  str_of_float 100 = "100.0"%string /\ str_of_float 97.5 = "97.5"%string.
Proof. split; vm_compute; reflexivity. Qed.


(** ** Floats *)

Lemma div_nan_r (x : float) : Prim2SF (x / nan) = S754_nan.
Proof.
  rewrite div_spec.
  replace (Prim2SF nan) with S754_nan by reflexivity.
  destruct (Prim2SF x); reflexivity.
Qed.

Lemma sub_nan_l (x y : float) : Prim2SF x = S754_nan -> Prim2SF (x - y) = S754_nan.
Proof.
  intros H. rewrite sub_spec, H. reflexivity.
Qed.

Lemma leb_nan_l (x y : float) : Prim2SF x = S754_nan -> (x <=? y)%float = false.
Proof.
  intros H. rewrite leb_spec, H. reflexivity.
Qed.

Lemma pct_undefined (x : float) : (x / nan - 1 <=? drop_threshold)%float = false.
Proof.
  apply leb_nan_l, sub_nan_l, div_nan_r.
Qed.

(** ** The drawdown detector *)

Lemma nth_error_shift (n : nat) (vals : list float) (i : nat) :
  nth_error (shift n vals) i =
  if (i <? List.length vals)%nat
  then (if (i <? n)%nat then Some nan else nth_error vals (i - n))
  else None.
Proof.
  unfold shift.
  destruct (Nat.ltb_spec i (List.length vals)) as [Hi | Hi].
  - rewrite nth_error_firstn.
    destruct (Nat.ltb_spec i (List.length vals)); [| lia].
    destruct (Nat.ltb_spec i n) as [Hn | Hn].
    + rewrite nth_error_app1 by (rewrite repeat_length; exact Hn).
      apply nth_error_repeat. exact Hn.
    + rewrite nth_error_app2 by (rewrite repeat_length; exact Hn).
      rewrite repeat_length. reflexivity.
  - apply nth_error_None. rewrite length_firstn. lia.
Qed.

Lemma shift_length (n : nat) (vals : list float) :
  List.length (shift n vals) = List.length vals.
Proof.
  unfold shift. rewrite length_firstn, length_app, repeat_length. lia.
Qed.

Lemma nth_error_combine {A B : Type} (l : list A) (l' : list B) (i : nat) :
  nth_error (combine l l') i =
  match nth_error l i, nth_error l' i with
  | Some a, Some b => Some (a, b)
  | _, _ => None
  end.
Proof.
  revert l' i. induction l as [| a l IH]; intros [| b l'] [| i]; simpl; try reflexivity.
  - destruct (nth_error l i); reflexivity.
  - apply IH.
Qed.

Lemma values_pct_change (n : nat) (s : Series) :
  values (pct_change n s) =
  map (fun xy => (fst xy / snd xy - 1)%float) (combine (values s) (shift n (values s))).
Proof.
  unfold values at 1, pct_change. simpl.
  set (l := map _ (combine (values s) _)).
  assert (Hlen : List.length (index s) = List.length l).
  { unfold l, index, values.
    repeat (rewrite ?length_map, ?length_combine, ?shift_length). lia. }
  clearbody l. revert l Hlen.
  induction (index s) as [| a t IH]; intros [| b l] Hlen; simpl in *; try discriminate.
  - reflexivity.
  - f_equal. apply IH. lia.
Qed.

Lemma index_pct_change (n : nat) (s : Series) : index (pct_change n s) = index s.
Proof.
  unfold index at 1, pct_change. simpl.
  set (l := map _ (combine (values s) _)).
  assert (Hlen : List.length (index s) = List.length l).
  { unfold l, index, values.
    repeat (rewrite ?length_map, ?length_combine, ?shift_length). lia. }
  clearbody l. revert l Hlen.
  induction (index s) as [| a t IH]; intros [| b l] Hlen; simpl in *; try discriminate.
  - reflexivity.
  - f_equal. apply IH. lia.
Qed.

(** The mask at a position: defined from the fifth observation on, and then
    the comparison the source writes. *)
Lemma drop_mask_nth (s : Series) (i : nat) :
  nth_error (drop_mask s) i =
  match nth_error (values s) i with
  | None => None
  | Some p =>
      if (i <? 4)%nat then Some false
      else match nth_error (values s) (i - 4) with
           | Some q => Some (p / q - 1 <=? drop_threshold)%float
           | None => None
           end
  end.
Proof.
  unfold drop_mask. rewrite values_pct_change, map_map.
  rewrite nth_error_map, nth_error_combine, nth_error_shift.
  destruct (nth_error (values s) i) as [p |] eqn:Hp; [| reflexivity].
  assert (Hi : (i < List.length (values s))%nat)
    by (apply nth_error_Some; congruence).
  destruct (Nat.ltb_spec i (List.length (values s))); [| lia].
  destruct (Nat.ltb_spec i 4).
  - simpl. rewrite pct_undefined. reflexivity.
  - destruct (nth_error (values s) (i - 4)); reflexivity.
Qed.

Lemma boolean_index_In {A : Type} (mask : list bool) (l : list A) (x : A) :
  In x (boolean_index mask l) <->
  exists j, nth_error l j = Some x /\ nth_error mask j = Some true.
Proof.
  unfold boolean_index. revert l.
  induction mask as [| b mask IH]; intros [| a l]; simpl.
  - split; [tauto | intros [[| j] [H _]]; discriminate].
  - split; [tauto | intros [[| j] [_ H]]; discriminate].
  - split; [tauto | intros [[| j] [H _]]; discriminate].
  - destruct b; simpl.
    + rewrite IH. split.
      * intros [-> | [j Hj]]; [exists O; auto | exists (S j); auto].
      * intros [[| j] [H1 H2]]; simpl in *; [left; congruence | right; eauto].
    + rewrite IH. split.
      * intros [j Hj]. exists (S j). auto.
      * intros [[| j] [H1 H2]]; simpl in *; [discriminate | eauto].
Qed.

Lemma drop_dates_In (s : Series) (dt : Z) :
  In dt (drop_dates s) <->
  exists j, nth_error (index s) j = Some dt /\ nth_error (drop_mask s) j = Some true.
Proof.
  unfold drop_dates. rewrite in_map_iff. split.
  - intros [[d v] [<- Hin]]. apply boolean_index_In in Hin as [j [Hj Hm]].
    exists j. split; [| exact Hm].
    rewrite <- (index_pct_change 4 s). unfold index.
    rewrite nth_error_map, Hj. reflexivity.
  - intros [j [Hj Hm]].
    rewrite <- (index_pct_change 4 s) in Hj. unfold index in Hj.
    rewrite nth_error_map in Hj.
    destruct (nth_error (items (pct_change 4 s)) j) as [p |] eqn:Hp; [| discriminate].
    exists p. split; [simpl in Hj; congruence |].
    apply boolean_index_In. eauto.
Qed.

(** C1.  On the series with the missing closes dropped, the detector marks
    position [i] exactly when [i] has four earlier observations and
    [price(i) / price(i-4) - 1 <= -0.10]; no position below 4 is marked; and
    the trigger dates are the labels of the marked positions. *)
Theorem drawdown_event_iff (closes : Series) (i : nat) :
  (nth_error (drop_mask (dropna closes)) i = Some true <->
     (4 <= i)%nat /\
     exists p q,
       nth_error (values (dropna closes)) i = Some p /\
       nth_error (values (dropna closes)) (i - 4) = Some q /\
       (p / q - 1 <=? drop_threshold)%float = true)
  /\ ((i < 4)%nat -> nth_error (drop_mask (dropna closes)) i <> Some true)
  /\ (forall dt, In dt (drop_dates (dropna closes)) <->
        exists j, nth_error (index (dropna closes)) j = Some dt /\
                  nth_error (drop_mask (dropna closes)) j = Some true)
  /\ Forall (fun v => is_nan v = false) (values (dropna closes)).
Proof.
  set (s := dropna closes).
  assert (Hmask := drop_mask_nth s i).
  repeat split.
  - rewrite Hmask in H.
    destruct (nth_error (values s) i); [| discriminate].
    destruct (Nat.ltb_spec i 4); [discriminate | assumption].
  - rewrite Hmask in H.
    destruct (nth_error (values s) i) as [p |]; [| discriminate].
    destruct (Nat.ltb_spec i 4); [discriminate |].
    destruct (nth_error (values s) (i - 4)) as [q |]; [| discriminate].
    exists p, q. repeat split. congruence.
  - intros [Hi [p [q [Hp [Hq Hle]]]]].
    rewrite Hmask, Hp, Hq.
    destruct (Nat.ltb_spec i 4); [lia | congruence].
  - intros Hi Hc. rewrite Hmask in Hc.
    destruct (nth_error (values s) i); [| discriminate].
    destruct (Nat.ltb_spec i 4); [discriminate | lia].
  - apply drop_dates_In.
  - apply drop_dates_In.
  - unfold s, values, dropna. simpl.
    apply Forall_forall. intros v Hv.
    apply in_map_iff in Hv as [p [<- Hp]].
    apply filter_In in Hp as [_ Hp].
    destruct (is_nan (snd p)); [discriminate | reflexivity].
Qed.

(** The spec's scenario: closes 100, 95, 90, 85, 88 give one event, at the
    fifth observation. *)
Example drawdown_scenario :
  drop_dates (dropna (mkSeries "X"
     [(0, 100%float); (1, 95%float); (2, 90%float); (3, 85%float); (4, 88%float)]))
  = [4].
Proof. vm_compute. reflexivity. Qed.

(** ** The order of floats *)

Ltac sf_cases :=
  repeat match goal with
         | |- context [Pos.compare_cont Eq ?a ?b] =>
             change (Pos.compare_cont Eq a b) with (Pos.compare a b)
         end;
  repeat match goal with
         | |- context [Z.compare ?a ?b] => destruct (Z.compare_spec a b)
         | |- context [Pos.compare ?a ?b] => destruct (Pos.compare_spec a b)
         end;
  simpl; intros;
  first [reflexivity | discriminate | congruence | exfalso; lia].




Lemma SFcompare_lt_eq (x y z : spec_float) :
  SFcompare x y = Some Lt -> SFcompare y z = Some Eq -> SFcompare x z = Some Lt.
Proof.
  destruct x as [sx | sx | | sx mx ex], y as [sy | sy | | sy my ey],
    z as [sz | sz | | sz mz ez]; simpl; try discriminate;
    try (destruct sx; simpl; try discriminate);
    try (destruct sy; simpl; try discriminate);
    try (destruct sz; simpl; try discriminate);
    try reflexivity; try congruence.
  all: sf_cases.
Qed.



Lemma is_nan_true (x : float) : is_nan x = true -> Prim2SF x = S754_nan.
Proof.
  unfold is_nan. rewrite eqb_spec. unfold SFeqb.
  destruct (Prim2SF x) as [sx | sx | | sx mx ex]; simpl; try reflexivity.
  - discriminate.
  - destruct sx; discriminate.
  - rewrite Z.compare_refl.
    change (Pos.compare_cont Eq mx mx) with (Pos.compare mx mx).
    rewrite Pos.compare_refl. destruct sx; discriminate.
Qed.





(** ** [min] returns the first minimum *)

Section PyMinSpec.
Context {A K : Type}.
Variable ltb : K -> K -> result bool.
Variable key : A -> result K.
Variable kf : A -> K.
Variable lt : K -> K -> bool.

Variable l : list A.
Hypothesis key_ok : forall x, In x l -> key x = Ok (kf x).
Hypothesis ltb_ok : forall x y, In x l -> In y l -> ltb (kf x) (kf y) = Ok (lt (kf x) (kf y)).
Hypothesis lt_irrefl : forall x, In x l -> lt (kf x) (kf x) = false.
Hypothesis lt_trans : forall x y z, In x l -> In y l -> In z l ->
  lt (kf x) (kf y) = true -> lt (kf y) (kf z) = true -> lt (kf x) (kf z) = true.
Hypothesis lt_negtrans : forall x y z, In x l -> In y l -> In z l ->
  lt (kf x) (kf y) = false -> lt (kf y) (kf z) = false -> lt (kf x) (kf z) = false.



End PyMinSpec.

(** ** Dictionaries and [mapM] *)


Lemma dict_get_In {V : Type} (d : dict V) (k : string) :
  (exists v, dict_get k d = Some v) <-> In k (keys d).
Proof.
  unfold dict_get, keys.
  induction d as [| [k0 v0] d IH]; simpl.
  - split; [intros [v H]; discriminate | tauto].
  - destruct (String.eqb_spec k k0) as [-> | Hne]; simpl.
    + split; eauto.
    + rewrite IH. split; [tauto | intros [E | H]; [congruence | exact H]].
Qed.




(** ** The option-chain matcher *)

Section MatcherSpec.
Variable iso_date : string -> result Z.
Variable py_float : string -> result float.



End MatcherSpec.

Section MatcherClaim.
Variable iso_date : string -> result Z.
Variable py_float : string -> result float.
Variable py_str : float -> string.


End MatcherClaim.

(** ** The loop body of [analyze_ticker] *)

Lemma min_loop_In {A K : Type} (ltb : K -> K -> result bool) (key : A -> result K)
  (t : list A) (best : A) (bk : K) (b : A) :
  min_loop ltb key best bk t = Ok b ->
  b = best \/ (In b t /\ exists k, key b = Ok k).
Proof.
  revert best bk. induction t as [| x t IH]; intros best bk; simpl.
  - intros E. injection E as <-. left. reflexivity.
  - destruct (key x) as [kx |] eqn:Hkx; simpl; [| discriminate].
    destruct (ltb kx bk) as [[|] |]; simpl; [| | discriminate]; intros H;
      apply IH in H as [-> | [Hin Hk]]; eauto.
Qed.

Lemma py_min_In {A K : Type} (ltb : K -> K -> result bool) (key : A -> result K)
  (l : list A) (b : A) :
  py_min ltb key l = Ok b -> In b l /\ exists k, key b = Ok k.
Proof.
  destruct l as [| x t]; simpl; [discriminate |].
  destruct (key x) as [kx |] eqn:Hkx; simpl; [| discriminate].
  intros H. apply min_loop_In in H as [-> | [Hin Hk]]; eauto.
Qed.

Lemma filter_head {A : Type} (f : A -> bool) (l : list A) :
  match filter f l with
  | [] => forall x, In x l -> f x = false
  | p :: _ =>
      exists i, nth_error l i = Some p /\ f p = true
        /\ forall j q, (j < i)%nat -> nth_error l j = Some q -> f q = false
  end.
Proof.
  induction l as [| a l IH]; simpl.
  - tauto.
  - destruct (f a) eqn:Ha.
    + exists O. repeat split; [exact Ha |]. intros j q Hj. lia.
    + destruct (filter f l) as [| p r].
      * intros x [<- | Hx]; auto.
      * destruct IH as [i [Hi [Hp Hfirst]]].
        exists (S i). repeat split; [exact Hi | exact Hp |].
        intros [| j] q Hj Hq; simpl in Hq.
        -- injection Hq as <-. exact Ha.
        -- apply (Hfirst j q); [lia | exact Hq].
Qed.

Section LoopSpec.
Variable iso_date : string -> result Z.
Variable py_float : string -> result float.
Variable py_str : float -> string.

Lemma match_contract_key_parses (client : Client) (symbol : string) (s : Series)
  (dt : Z) (m : Match) :
  match_contract iso_date py_float py_str client symbol s dt = Ok (Some m) ->
  exists expiration, parse_key iso_date (best_key m) = Ok expiration.
Proof.
  unfold match_contract.
  destruct (loc s dt) as [price |]; simpl; [| discriminate].
  destruct (get_option_chain client symbol _ _) as [resp |]; simpl; [| discriminate].
  destruct (json resp) as [chain |]; simpl; [| discriminate].
  destruct (match putExpDateMap chain with Some m0 => m0 | None => [] end)
    as [| kv put_map] eqn:Hpm; [discriminate |].
  destruct (nearest_expiration iso_date _ (kv :: put_map)) as [bk |] eqn:Hbk;
    simpl; [| discriminate].
  destruct (getitem bk (kv :: put_map)) as [sm |]; simpl; [| discriminate].
  destruct (nearest_strike py_float price sm) as [x |]; simpl; [| discriminate].
  destruct (getitem (py_str x) sm) as [entries |]; simpl; [| discriminate].
  destruct (first_item entries) as [o |]; simpl; [| discriminate].
  intros E. injection E as <-. simpl.
  apply py_min_In in Hbk as [_ [k Hk]].
  destruct (parse_key iso_date bk) as [d |]; simpl in Hk; [eauto | discriminate].
Qed.


(** C4.  For a recorded trial, the evaluator takes the first entry of the
    price series dated on or after the matched expiration; the trial is a
    success exactly when that close is strictly above the strike, and when
    no entry is that late the trial is counted with the success count
    unchanged. *)
Theorem outcome_on_first_close_after_expiration (client : Client)
  (symbol : string) (s : Series) (dt : Z) (m : Match) (iv : float)
  (trials successes : nat) :
  match_contract iso_date py_float py_str client symbol s dt = Ok (Some m) ->
  volatility (opt m) = Some iv ->
  (iv <=? iv_threshold)%float = false ->
  exists expiration,
    parse_key iso_date (best_key m) = Ok expiration
    /\ ((exists i p,
           nth_error (items s) i = Some p
           /\ expiration <= date_of (fst p)
           /\ (forall j q, (j < i)%nat -> nth_error (items s) j = Some q ->
                 date_of (fst q) < expiration)
           /\ trigger_step iso_date py_float py_str client symbol s dt (trials, successes)
              = Ok (S trials,
                    if (strike m <? snd p)%float then S successes else successes))
        \/ ((forall q, In q (items s) -> date_of (fst q) < expiration)
            /\ trigger_step iso_date py_float py_str client symbol s dt (trials, successes)
               = Ok (S trials, successes))).
Proof.
  intros Hm Hiv Hc.
  destruct (match_contract_key_parses _ _ _ _ _ Hm) as [expiration Hexp].
  exists expiration. split; [exact Hexp |].
  unfold trigger_step. rewrite Hm. simpl. unfold settle.
  rewrite Hiv, Hc, Hexp. simpl.
  assert (Hhead := filter_head (fun p => expiration <=? date_of (fst p)) (items s)).
  unfold future_prices.
  destruct (filter _ (items s)) as [| p r].
  - right. split; [| reflexivity].
    intros q Hq. apply Hhead in Hq. apply Z.leb_gt in Hq. exact Hq.
  - left. destruct Hhead as [i [Hi [Hp Hfirst]]].
    exists i, p. repeat split.
    + exact Hi.
    + apply Z.leb_le. exact Hp.
    + intros j q Hj Hq. apply Z.leb_gt. apply (Hfirst j q Hj Hq).
    + destruct (strike m <? snd p)%float; reflexivity.
Qed.

End LoopSpec.

(** ** The lookup of the selected strike *)

Lemma mapM_In {A B : Type} (f : A -> result B) (l : list A) (ys : list B) (y : B) :
  mapM f l = Ok ys -> In y ys -> exists x, In x l /\ f x = Ok y.
Proof.
  revert ys. induction l as [| a l IH]; intros ys; simpl.
  - intros E. injection E as <-. intros [].
  - destruct (f a) as [b |] eqn:Hb; simpl; [| discriminate].
    destruct (mapM f l) as [bs |]; simpl; [| discriminate].
    intros E. injection E as <-. intros [<- | Hy].
    + eauto.
    + destruct (IH bs eq_refl Hy) as [x [Hx Hf]]. eauto.
Qed.

Section LookupSpec.
Variable iso_date : string -> result Z.
Variable py_float : string -> result float.
Variable py_str : float -> string.

Lemma nearest_strike_listed (price : located) (sm : StrikesMap) (x : float) :
  nearest_strike py_float price sm = Ok x ->
  exists sk, In sk (keys sm) /\ py_float sk = Ok x.
Proof.
  unfold nearest_strike.
  destruct (mapM py_float (keys sm)) as [strikes |] eqn:Hmap; simpl; [| discriminate].
  intros H. apply py_min_In in H as [Hin _].
  apply (mapM_In _ _ _ _ Hmap Hin).
Qed.

(** C10 as amended.  Once the nearest strike [x] is chosen, the lookup
    [strikes_map[str(x)]] raises [KeyError] exactly when [str(x)] is not
    one of the listed keys, and the exception leaves the loop body; when it
    is a key the entries listed under it are used.  If every listed key is
    the string of its own float value, [str(x)] is a key. *)
Theorem strike_lookup_keyerror_iff (client : Client) (symbol : string)
  (s : Series) (dt : Z) (price : located) (resp : Response ChainJson)
  (chain : ChainJson) (put_map : PutMap) (bk : string) (sm : StrikesMap)
  (x : float) :
  loc s dt = Ok price ->
  get_option_chain client symbol (date_of dt) (date_of (add_days dt 30)) = Ok resp ->
  json resp = Ok chain ->
  putExpDateMap chain = Some put_map ->
  put_map <> [] ->
  nearest_expiration iso_date (date_of (add_days dt 30)) put_map = Ok bk ->
  getitem bk put_map = Ok sm ->
  nearest_strike py_float price sm = Ok x ->
  (~ In (py_str x) (keys sm) <->
     getitem (py_str x) sm = Raise (KeyError (py_str x)))
  /\ (~ In (py_str x) (keys sm) ->
      forall acc,
        trigger_step iso_date py_float py_str client symbol s dt acc
        = Raise (KeyError (py_str x)))
  /\ (In (py_str x) (keys sm) ->
      exists entries,
        getitem (py_str x) sm = Ok entries
        /\ match_contract iso_date py_float py_str client symbol s dt
           = (o <- first_item entries ;; Ok (Some (mkMatch bk x o))))
  /\ ((forall sk y, In sk (keys sm) -> py_float sk = Ok y -> py_str y = sk) ->
      In (py_str x) (keys sm)).
Proof.
  intros Hloc Hresp Hjson Hpm Hne Hbk Hsm Hx.
  assert (Hrun : match_contract iso_date py_float py_str client symbol s dt
                 = (entries <- getitem (py_str x) sm ;;
                    o <- first_item entries ;; Ok (Some (mkMatch bk x o)))).
  { unfold match_contract. rewrite Hloc. simpl. rewrite Hresp. simpl.
    rewrite Hjson. simpl. rewrite Hpm.
    destruct put_map as [| kv rest]; [congruence |].
    rewrite Hbk. simpl. rewrite Hsm. simpl. rewrite Hx. reflexivity. }
  assert (Hget : ~ In (py_str x) (keys sm) <->
                 getitem (py_str x) sm = Raise (KeyError (py_str x))).
  { unfold getitem. rewrite <- dict_get_In.
    destruct (dict_get (py_str x) sm) as [v |]; split.
    - intros H. exfalso. apply H. eauto.
    - discriminate.
    - reflexivity.
    - intros _ [v H]. discriminate. }
  split; [exact Hget | split; [| split]].
  - intros Hnot acc. unfold trigger_step. rewrite Hrun.
    apply Hget in Hnot. rewrite Hnot. reflexivity.
  - intros Hin. apply dict_get_In in Hin as [entries Hentries].
    exists entries. unfold getitem in *. rewrite Hrun, Hentries. split; reflexivity.
  - intros Hround. destruct (nearest_strike_listed price sm x Hx) as [sk [Hsk Hf]].
    rewrite (Hround sk x Hsk Hf). exact Hsk.
Qed.

End LookupSpec.

(** ** The fetchers *)

Lemma closes_of_frame_nonempty (symbol : string) (data : list Candle) :
  data <> [] ->
  closes_of_frame symbol data
  = Ok (mkSeries symbol (map (fun c => (datetime c, close c)) data)).
Proof.
  intros Hne. unfold closes_of_frame, candle_frame.
  destruct data as [| c data]; [congruence |].
  unfold frame_column. simpl. do 2 f_equal. f_equal.
  unfold to_datetime_ms. rewrite map_map.
  induction data as [| c' data IH]; simpl; [reflexivity |].
  f_equal. apply IH. discriminate.
Qed.

(** C8 as amended.  On a response with at least one candle both fetchers
    return the closes in the order of the response, one entry per candle,
    labelled by the candle's timestamp: nothing is sorted and no repeated
    timestamp is dropped. *)
Theorem fetch_keeps_provider_order (client : Client) (symbol : string)
  (start_datetime end_datetime : Z) (resp : Response PriceJson) (js : PriceJson) :
  get_price_history_every_day client symbol start_datetime end_datetime = Ok resp ->
  raise_for_status resp = Ok tt ->
  json resp = Ok js ->
  candles_or_empty js <> [] ->
  fetch_daily_closes client symbol start_datetime end_datetime
  = Ok (mkSeries symbol (map (fun c => (datetime c, close c)) (candles_or_empty js)))
  /\ _one client start_datetime end_datetime symbol
     = Ok (mkSeries symbol (map (fun c => (datetime c, close c)) (candles_or_empty js))).
Proof.
  intros Hresp Hstatus Hjson Hne.
  unfold fetch_daily_closes, _one.
  rewrite Hresp. simpl. rewrite Hstatus. simpl. rewrite Hjson. simpl.
  rewrite (closes_of_frame_nonempty symbol _ Hne).
  split; [| reflexivity].
  destruct (candles_or_empty js); [congruence | reflexivity].
Qed.

(** C9.  When the provider answers with no candle, [fetch_daily_closes]
    raises [RuntimeError] and the worker of [fetch_all_closes] raises
    [KeyError] (the frame has no [datetime] column): neither returns a
    series. *)
Theorem no_candles_raises (client : Client) (symbol : string)
  (start_datetime end_datetime : Z) (resp : Response PriceJson) (js : PriceJson) :
  get_price_history_every_day client symbol start_datetime end_datetime = Ok resp ->
  raise_for_status resp = Ok tt ->
  json resp = Ok js ->
  candles_or_empty js = [] ->
  fetch_daily_closes client symbol start_datetime end_datetime
  = Raise (RuntimeError ("No data for " ++ symbol))
  /\ _one client start_datetime end_datetime symbol = Raise (KeyError "datetime").
Proof.
  intros Hresp Hstatus Hjson Hempty.
  unfold fetch_daily_closes, _one.
  rewrite Hresp. simpl. rewrite Hstatus. simpl. rewrite Hjson. simpl.
  rewrite Hempty. split; reflexivity.
Qed.

(** ** The aggregator *)

Lemma collect_names (done : list Future) :
  (forall sym s, In (sym, Ok s) done -> name s = sym) ->
  map name (fst (collect done)) = succeeded done.
Proof.
  unfold succeeded. induction done as [| [sym [s | e]] done IH]; intros Hname; simpl.
  - reflexivity.
  - destruct (collect done) as [ss log] eqn:Hc. simpl in *.
    f_equal; [apply Hname; left; reflexivity | apply IH].
    intros; apply Hname; right; assumption.
  - destruct (collect done) as [ss log] eqn:Hc. simpl in *.
    apply IH. intros; apply Hname; right; assumption.
Qed.

Lemma collect_series_In (done : list Future) (s : Series) :
  In s (fst (collect done)) <-> exists sym, In (sym, Ok s) done.
Proof.
  induction done as [| [sym [s0 | e]] done IH]; simpl.
  - split; [tauto | intros [sym []]].
  - destruct (collect done) as [ss log]. simpl in *. rewrite IH. split.
    + intros [<- | [sym' H]]; eauto.
    + intros [sym' [E | H]]; [left; congruence | right; eauto].
  - destruct (collect done) as [ss log]. simpl in *. rewrite IH. split.
    + intros [sym' H]; eauto.
    + intros [sym' [E | H]]; [discriminate | eauto].
Qed.

Lemma collect_log_In (done : list Future) (sym : string) (e : exn) :
  In (sym, e) (snd (collect done)) <-> In (sym, Raise e) done.
Proof.
  induction done as [| [sym0 [s0 | e0]] done IH]; simpl.
  - tauto.
  - destruct (collect done) as [ss log]. simpl in *. rewrite IH. split.
    + auto.
    + intros [E | H]; [discriminate | exact H].
  - destruct (collect done) as [ss log]. simpl in *. rewrite IH. split.
    + intros [E | H]; [left; congruence | auto].
    + intros [E | H]; [left; congruence | auto].
Qed.

Lemma filter_permutation {A : Type} (f : A -> bool) (l l' : list A) :
  Permutation l l' -> Permutation (filter f l) (filter f l').
Proof.
  induction 1 as [| x l l' _ IH | x y l | l l' l'' _ IH1 _ IH2]; simpl.
  - constructor.
  - destruct (f x); [constructor |]; exact IH.
  - destruct (f x), (f y); try apply Permutation_refl. constructor.
  - eapply Permutation_trans; eauto.
Qed.

Lemma one_name (client : Client) (st en : Z) (sym : string) (s : Series) :
  _one client st en sym = Ok s -> name s = sym.
Proof.
  unfold _one, closes_of_frame.
  destruct (get_price_history_every_day client sym st en) as [resp |]; simpl; [| discriminate].
  destruct (raise_for_status resp); simpl; [| discriminate].
  destruct (json resp) as [js |]; simpl; [| discriminate].
  destruct (frame_column _ "datetime" datetime); simpl; [| discriminate].
  destruct (frame_column _ "close" close); simpl; [| discriminate].
  intros E. injection E as <-. reflexivity.
Qed.

Lemma insert_row_index (r : Z * list float) (l : list (Z * list float)) :
  Sorted Z.le (map fst l) -> Sorted Z.le (map fst (insert_row r l)).
Proof.
  induction l as [| h t IH]; intros Hs; simpl.
  - repeat constructor.
  - destruct (Z.leb_spec (fst r) (fst h)).
    + simpl. constructor; [exact Hs | constructor; assumption].
    + simpl in *. inversion Hs as [| ? ? Ht Hh]; subst.
      constructor; [apply IH, Ht |].
      destruct t as [| h' t']; simpl.
      * constructor. lia.
      * destruct (Z.leb_spec (fst r) (fst h')); simpl; constructor; try lia.
        inversion Hh; subst. assumption.
Qed.

Lemma sort_index_sorted (df : DataFrame) :
  Sorted Z.le (map fst (rows (sort_index df))).
Proof.
  unfold sort_index. simpl.
  induction (rows df) as [| r l IH]; simpl; [constructor |].
  apply insert_row_index, IH.
Qed.

Lemma pd_concat_distinct (series : list Series) :
  series <> [] ->
  (forall s, In s series -> has_duplicates (index s) = false) ->
  exists df, pd_concat series = Ok df /\ columns df = map name series.
Proof.
  intros Hne Hdup. unfold pd_concat.
  destruct series as [| s0 rest]; [congruence |].
  replace (existsb (fun s => has_duplicates (index s)) (s0 :: rest)) with false.
  - eexists. split; reflexivity.
  - symmetry. apply not_true_is_false. intros H.
    apply existsb_exists in H as [s [Hs Hd]].
    rewrite (Hdup s Hs) in Hd. discriminate.
Qed.

Lemma futures_In (client : Client) (st en : Z) (symbols : list string) (f : Future) :
  In f (map (fun s => (s, _one client st en s)) symbols) <->
  In (fst f) symbols /\ snd f = _one client st en (fst f).
Proof.
  rewrite in_map_iff. split.
  - intros [s [<- Hs]]. auto.
  - intros [Hs E]. exists (fst f). destruct f; simpl in *. subst. auto.
Qed.

Lemma succeeded_futures (client : Client) (st en : Z) (symbols : list string) :
  succeeded (map (fun s => (s, _one client st en s)) symbols)
  = filter (fun s => is_ok (_one client st en s)) symbols.
Proof.
  unfold succeeded. induction symbols as [| s l IH]; simpl; [reflexivity |].
  destruct (is_ok (_one client st en s)); simpl; rewrite IH; reflexivity.
Qed.

(** C6 as amended.  Whatever the completion order, when some fetch succeeds
    and no returned series repeats a timestamp, the call returns a table
    whose rows are in ascending date order and whose columns are the
    tickers that succeeded, in the order in which their fetches completed:
    a rearrangement of the successful tickers of the input. *)
Theorem fetch_all_closes_order (as_completed : list Future -> list Future)
  (client : Client) (symbols : list string) (start_datetime end_datetime : Z) :
  (forall l, Permutation (as_completed l) l) ->
  (exists sym s, In sym symbols /\ _one client start_datetime end_datetime sym = Ok s) ->
  (forall sym s, In sym symbols ->
     _one client start_datetime end_datetime sym = Ok s ->
     has_duplicates (index s) = false) ->
  exists df,
    snd (fetch_all_closes as_completed client symbols start_datetime end_datetime) = Ok df
    /\ Sorted Z.le (map fst (rows df))
    /\ columns df
       = succeeded (as_completed
                      (map (fun s => (s, _one client start_datetime end_datetime s)) symbols))
    /\ Permutation (columns df)
         (filter (fun s => is_ok (_one client start_datetime end_datetime s)) symbols).
Proof.
  intros Hperm [sym0 [s0 [Hsym0 Hs0]]] Hdup.
  unfold fetch_all_closes.
  set (futures := map (fun s => (s, _one client start_datetime end_datetime s)) symbols).
  assert (Hin : forall f, In f (as_completed futures) <-> In f futures).
  { intros f. split; apply Permutation_in;
      [apply Hperm | apply Permutation_sym, Hperm]. }
  assert (Hfrom : forall sym s, In (sym, Ok s) (as_completed futures) ->
                  In sym symbols /\ _one client start_datetime end_datetime sym = Ok s).
  { intros sym s H. apply Hin, futures_In in H. simpl in H. intuition congruence. }
  destruct (collect (as_completed futures)) as [series log] eqn:Hc.
  assert (Hseries : series = fst (collect (as_completed futures))) by (rewrite Hc; reflexivity).
  destruct (pd_concat_distinct series) as [df [Hdf Hcols]].
  - assert (Hs : In s0 series).
    { rewrite Hseries. apply collect_series_In. exists sym0.
      apply Hin, futures_In. simpl. auto. }
    intros E. rewrite E in Hs. exact Hs.
  - intros s Hs. rewrite Hseries in Hs. apply collect_series_In in Hs as [sym Hs].
    destruct (Hfrom sym s Hs) as [H1 H2]. apply (Hdup sym s H1 H2).
  - exists (sort_index df). simpl. rewrite Hdf. simpl.
    assert (Hnames : map name series = succeeded (as_completed futures)).
    { rewrite Hseries. apply collect_names. intros sym s H.
      apply (one_name client start_datetime end_datetime), (Hfrom sym s H). }
    split; [reflexivity | split; [apply sort_index_sorted | split]].
    + rewrite Hcols. exact Hnames.
    + rewrite Hcols, Hnames, <- succeeded_futures. unfold succeeded.
      apply Permutation_map, filter_permutation, Hperm.
Qed.

(** When every fetch fails, each failure is printed and then
    [pd.concat] is called on an empty list. *)
Lemma fetch_all_closes_all_fail (as_completed : list Future -> list Future)
  (client : Client) (symbols : list string) (start_datetime end_datetime : Z) :
  (forall l, Permutation (as_completed l) l) ->
  (forall sym, In sym symbols ->
     is_ok (_one client start_datetime end_datetime sym) = false) ->
  snd (fetch_all_closes as_completed client symbols start_datetime end_datetime)
  = Raise (ValueError "No objects to concatenate").
Proof.
  intros Hperm Hfail. unfold fetch_all_closes.
  set (futures := map (fun s => (s, _one client start_datetime end_datetime s)) symbols).
  destruct (collect (as_completed futures)) as [series log] eqn:Hc. simpl.
  destruct series as [| s series]; [reflexivity | exfalso].
  assert (Hs : In s (fst (collect (as_completed futures))))
    by (rewrite Hc; left; reflexivity).
  apply collect_series_In in Hs as [sym Hs].
  apply (Permutation_in _ (Hperm futures)), futures_In in Hs. simpl in Hs.
  destruct Hs as [Hsym Hok]. specialize (Hfail sym Hsym).
  rewrite <- Hok in Hfail. discriminate.
Qed.

(** ** The drop-signal table of [main] *)

Lemma position_listed (sym : string) (cols : list string) :
  existsb (String.eqb sym) cols = true -> exists j, position sym cols = Some j.
Proof.
  induction cols as [| c cols IH]; simpl; [discriminate |].
  destruct (String.eqb sym c); simpl; [eauto |].
  intros H. destruct (IH H) as [j ->]. simpl. eauto.
Qed.

Lemma drop_rows_order (df : DataFrame) (symbols : list string) :
  (forall t, In t symbols -> existsb (String.eqb t) (columns df) = true) ->
  exists table,
    drop_rows df symbols = Ok table
    /\ map fst table = filter (enough_history df) symbols.
Proof.
  induction symbols as [| t l IH]; intros Hcols; simpl.
  - exists []. split; reflexivity.
  - destruct IH as [table [Hrun Hfst]]; [intros; apply Hcols; right; assumption |].
    destruct (position_listed t (columns df) (Hcols t (or_introl eq_refl))) as [j Hj].
    unfold enough_history, column. rewrite Hj. simpl. rewrite Hrun. simpl.
    destruct (List.length _ <? 5)%nat; simpl.
    + exists table. split; [reflexivity | exact Hfst].
    + eexists. split; [reflexivity |]. simpl. f_equal. exact Hfst.
Qed.

(** C7 as amended.  The final table lists the tickers in the order of the
    input list: its rows are the input tickers that have a column in the
    price table and at least five closes, none moved. *)
Theorem results_in_ticker_order (symbols : list string) (closes_df : DataFrame) :
  exists table,
    drop_rows closes_df (available symbols closes_df) = Ok table
    /\ map fst table
       = filter (enough_history closes_df) (available symbols closes_df)
    /\ available symbols closes_df
       = filter (fun t => existsb (String.eqb t) (columns closes_df)) symbols
    /\ results_df symbols closes_df = set_index_ticker table.
Proof.
  destruct (drop_rows_order closes_df (available symbols closes_df)) as [table [Hrun Hfst]].
  - intros t Ht. unfold available in Ht. apply filter_In in Ht. apply Ht.
  - exists table. unfold results_df. rewrite Hrun. repeat split. exact Hfst.
Qed.

Example analyze_sample :
  analyze_ticker iso_date_ymd float_of_decimal str_of_float sample_client sample_series
  = Ok (1%nat, 1%nat).
Proof. vm_compute. reflexivity. Qed.

(** ** The statements on the worked payloads *)


(** The spec's scenario of a tie: expirations 25 and 35 days out are both
    5 days from the target, and the first listed is selected. *)
Example matcher_tie_sample :
  match_contract iso_date_ymd float_of_decimal str_of_float sample_client "X"
    sample_series (day 19728)
  = Ok (Some (mkMatch "2024-01-31:25" 90 (mkContract (Some 0.75%float)))).
Proof. vm_compute. reflexivity. Qed.




Lemma outcome_on_first_close_sample :
  exists expiration,
    parse_key iso_date_ymd "2024-01-31:25" = Ok expiration
    /\ ((exists i p,
           nth_error (items sample_series) i = Some p
           /\ expiration <= date_of (fst p)
           /\ (forall j q, (j < i)%nat -> nth_error (items sample_series) j = Some q ->
                 date_of (fst q) < expiration)
           /\ trigger_step iso_date_ymd float_of_decimal str_of_float sample_client "X"
                sample_series (day 19728) (O, O)
              = Ok (1%nat, if (90 <? snd p)%float then 1%nat else O))
        \/ ((forall q, In q (items sample_series) -> date_of (fst q) < expiration)
            /\ trigger_step iso_date_ymd float_of_decimal str_of_float sample_client "X"
                 sample_series (day 19728) (O, O)
               = Ok (1%nat, O))).
Proof.
  apply (outcome_on_first_close_after_expiration iso_date_ymd float_of_decimal
           str_of_float sample_client "X" sample_series (day 19728)
           (mkMatch "2024-01-31:25" 90%float (mkContract (Some 0.75%float)))
           0.75%float O O).
  - vm_compute. reflexivity.
  - reflexivity.
  - vm_compute. reflexivity.
Defined.

Lemma strike_lookup_keyerror_iff_sample :
  (~ In (str_of_float 100) (keys [("100"%string, [mkContract None])]) <->
     getitem (str_of_float 100) [("100"%string, [mkContract None])]
     = Raise (KeyError (str_of_float 100)))
  /\ (~ In (str_of_float 100) (keys [("100"%string, [mkContract None])]) ->
      forall acc,
        trigger_step iso_date_ymd float_of_decimal str_of_float
          (mkClient (fun _ _ _ => price_response sample_candles)
             (fun _ _ _ =>
                chain_response [("2024-01-31:25"%string, [("100"%string, [mkContract None])])]))
          "X" sample_series (day 19728) acc
        = Raise (KeyError (str_of_float 100)))
  /\ (In (str_of_float 100) (keys [("100"%string, [mkContract None])]) ->
      exists entries,
        getitem (str_of_float 100) [("100"%string, [mkContract None])] = Ok entries
        /\ match_contract iso_date_ymd float_of_decimal str_of_float
             (mkClient (fun _ _ _ => price_response sample_candles)
                (fun _ _ _ =>
                   chain_response [("2024-01-31:25"%string, [("100"%string, [mkContract None])])]))
             "X" sample_series (day 19728)
           = (o <- first_item entries ;; Ok (Some (mkMatch "2024-01-31:25" 100 o))))
  /\ ((forall sk y, In sk (keys [("100"%string, [mkContract None])]) ->
         float_of_decimal sk = Ok y -> str_of_float y = sk) ->
      In (str_of_float 100) (keys [("100"%string, [mkContract None])])).
Proof.
  apply (strike_lookup_keyerror_iff iso_date_ymd float_of_decimal str_of_float
           _ "X" sample_series (day 19728) (Scalar 88)
           (mkResponse (Ok tt)
              (Ok (mkChainJson
                     (Some [("2024-01-31:25"%string, [("100"%string, [mkContract None])])]))))
           (mkChainJson
              (Some [("2024-01-31:25"%string, [("100"%string, [mkContract None])])]))
           [("2024-01-31:25"%string, [("100"%string, [mkContract None])])]
           "2024-01-31:25" [("100"%string, [mkContract None])] 100%float).
  - vm_compute. reflexivity.
  - reflexivity.
  - reflexivity.
  - reflexivity.
  - discriminate.
  - vm_compute. reflexivity.
  - vm_compute. reflexivity.
  - vm_compute. reflexivity.
Defined.

(** A chain listing only the key [100] stops the analysis with [KeyError]. *)
Example lone_noncanonical_key_raises :
  analyze_ticker iso_date_ymd float_of_decimal str_of_float
    (mkClient (fun _ _ _ => price_response sample_candles)
       (fun _ _ _ =>
          chain_response [("2024-01-31:25"%string, [("100"%string, [mkContract None])])]))
    sample_series
  = Raise (KeyError "100.0").
Proof. vm_compute. reflexivity. Qed.

(** C10, the claim as stated fails: the nearest strike's key is [100], not
    the string [100.0] of its float value, yet the lookup finds the entries
    listed under [100.0] and nothing is raised. *)
Lemma noncanonical_key_without_keyerror :
  keys (snd (List.hd ("k"%string, []) twin_chain)) = ["100"; "100.0"]%string
  /\ float_of_decimal "100" = Ok 100%float
  /\ nearest_strike float_of_decimal (Scalar 88)
       (snd (List.hd ("k"%string, []) twin_chain)) = Ok 100%float
  /\ String.eqb (str_of_float 100) "100" = false
  /\ match_contract iso_date_ymd float_of_decimal str_of_float twin_client "X"
       sample_series (day 19728)
     = Ok (Some (mkMatch "2024-01-31:25" 100 (mkContract (Some 0.5%float))))
  /\ analyze_ticker iso_date_ymd float_of_decimal str_of_float twin_client sample_series
     = Ok (O, O).
Proof. repeat split; vm_compute; reflexivity. Qed.

Lemma fetch_keeps_provider_order_sample :
  fetch_daily_closes unsorted_client "X" 0 0
  = Ok (mkSeries "X" (map (fun c => (datetime c, close c)) unsorted_candles))
  /\ _one unsorted_client 0 0 "X"
     = Ok (mkSeries "X" (map (fun c => (datetime c, close c)) unsorted_candles)).
Proof.
  apply (fetch_keeps_provider_order unsorted_client "X" 0 0
           (mkResponse (Ok tt) (Ok (mkPriceJson (Some unsorted_candles))))
           (mkPriceJson (Some unsorted_candles)));
    try reflexivity.
  discriminate.
Defined.

(** C8, the claim as stated fails: the series comes back in the order of
    the response, not ascending, with the repeated timestamp kept twice. *)
Lemma fetch_returns_unsorted_duplicates :
  fetch_daily_closes unsorted_client "X" 0 0
  = Ok (mkSeries "X" [(day 3, 30%float); (day 1, 10%float); (day 1, 11%float)])
  /\ ascending [day 3; day 1; day 1] = false
  /\ has_duplicates [day 3; day 1; day 1] = true.
Proof. repeat split; vm_compute; reflexivity. Qed.

Lemma no_candles_raises_sample :
  fetch_daily_closes empty_client "X" 0 0 = Raise (RuntimeError ("No data for " ++ "X"))
  /\ _one empty_client 0 0 "X" = Raise (KeyError "datetime").
Proof.
  apply (no_candles_raises empty_client "X" 0 0
           (mkResponse (Ok tt) (Ok (mkPriceJson (Some []))))
           (mkPriceJson (Some [])));
    reflexivity.
Defined.

(** C5: with every fetch failing, both failures are printed and the call
    ends in the [ValueError] of [pd.concat] instead of returning a table. *)
Theorem all_fetches_fail_aborts :
  fetch_all_closes (fun done => done) down_client ["AAPL"; "MSFT"]%string 0 0
  = ([("AAPL"%string, ConnectionError); ("MSFT"%string, ConnectionError)],
     Raise (ValueError "No objects to concatenate"))
  /\ main (fun done => done) down_client 0
     = Raise (ValueError "No objects to concatenate").
Proof. split; vm_compute; reflexivity. Qed.

Lemma fetch_all_closes_order_sample :
  exists df,
    snd (fetch_all_closes (@rev Future) sample_client ["A"; "B"]%string 0 0) = Ok df
    /\ Sorted Z.le (map fst (rows df))
    /\ columns df
       = succeeded (rev (map (fun s => (s, _one sample_client 0 0 s)) ["A"; "B"]%string))
    /\ Permutation (columns df)
         (filter (fun s => is_ok (_one sample_client 0 0 s)) ["A"; "B"]%string).
Proof.
  apply (fetch_all_closes_order (@rev Future) sample_client ["A"; "B"]%string 0 0).
  - intros l. apply Permutation_sym, Permutation_rev.
  - exists "A"%string. eexists. split; [left; reflexivity | reflexivity].
  - intros sym s [<- | [<- | []]] E; injection E as <-; vm_compute; reflexivity.
Defined.

(** C6, the claim as stated fails: the same two successful fetches give
    the columns [A, B] when [A] completes first and [B, A] when [B] does. *)
Lemma columns_follow_completion_order :
  exists df1 df2,
    snd (fetch_all_closes (fun done => done) sample_client ["A"; "B"]%string 0 0) = Ok df1
    /\ snd (fetch_all_closes (@rev Future) sample_client ["A"; "B"]%string 0 0) = Ok df2
    /\ columns df1 = ["A"; "B"]%string
    /\ columns df2 = ["B"; "A"]%string.
Proof. do 2 eexists. repeat split; vm_compute; reflexivity. Qed.

(** C7, the claim as stated fails: with five closes for every ticker the
    table lists all 90 tickers in the order of the source list, which is
    not the order of the symbols (MSFT stands before GOOGL). *)
Lemma main_table_not_sorted :
  exists table,
    main (fun done => done) sample_client 0 = Ok table
    /\ map fst table = tickers
    /\ ticker_sorted (map fst table) = false
    /\ String.leb "MSFT" "GOOGL" = false.
Proof. eexists. repeat split; vm_compute; reflexivity. Qed.

(** * Further properties of the code *)

(** ** Counting the drawdown events *)

Lemma boolean_index_length {A : Type} (mask : list bool) (l : list A) :
  List.length mask = List.length l ->
  List.length (boolean_index mask l) = List.length (filter (fun b => b) mask).
Proof.
  unfold boolean_index. rewrite length_map. revert l.
  induction mask as [| b mask IH]; intros [| a l] Hlen; simpl in *; try discriminate.
  - reflexivity.
  - destruct b; simpl; [f_equal |]; apply IH; lia.
Qed.

Lemma drop_mask_length (s : Series) :
  List.length (drop_mask s) = List.length (items s).
Proof.
  unfold drop_mask. rewrite values_pct_change. unfold values.
  repeat (rewrite ?length_map, ?length_combine, ?shift_length). lia.
Qed.

Lemma pct_change_length (n : nat) (s : Series) :
  List.length (items (pct_change n s)) = List.length (items s).
Proof.
  rewrite <- (length_map fst (items (pct_change n s))).
  fold (index (pct_change n s)). rewrite index_pct_change.
  unfold index. apply length_map.
Qed.

Lemma leading_false_count (n : nat) (mask : list bool) :
  (forall i, (i < n)%nat -> nth_error mask i <> Some true) ->
  (List.length (filter (fun b => b) mask) <= List.length mask - n)%nat.
Proof.
  revert mask. induction n as [| n IH]; intros mask H.
  - rewrite Nat.sub_0_r. apply filter_length_le.
  - destruct mask as [| b mask]; simpl; [lia |].
    destruct b.
    + exfalso. apply (H O); [lia | reflexivity].
    + apply IH. intros i Hi. apply (H (S i)). lia.
Qed.

Lemma drop_count_bounds (s : Series) :
  List.length (drop_dates s) = drop_count s
  /\ (drop_count s <= List.length (items s) - 4)%nat.
Proof.
  unfold drop_dates, drop_count. rewrite length_map. split.
  - apply boolean_index_length.
    rewrite drop_mask_length, pct_change_length. reflexivity.
  - rewrite <- drop_mask_length. apply leading_false_count.
    intros i Hi. rewrite drop_mask_nth.
    destruct (nth_error (values s) i); [| discriminate].
    destruct (Nat.ltb_spec i 4); [discriminate | lia].
Qed.

(** X1.  The number of trigger dates of a series is the drop count [main]
    reports for it, and it is at most the number of observations less 4. *)
Theorem drop_dates_count (s : Series) :
  List.length (drop_dates s) = drop_count s
  /\ (drop_count s <= List.length (items s) - 4)%nat.
Proof. exact (drop_count_bounds s). Qed.

(** ** The expiration key and the target date *)

Lemma split_head_no_colon (k : string) : has_colon k = false -> split_head k = k.
Proof.
  induction k as [| c k IH]; simpl; [reflexivity |].
  destruct (Ascii.eqb c ":"%char); simpl; [discriminate |].
  intros H. f_equal. apply IH, H.
Qed.

Lemma split_head_append (a b : string) :
  has_colon a = false -> split_head (a ++ String ":"%char b) = a.
Proof.
  induction a as [| c a IH]; simpl.
  - reflexivity.
  - destruct (Ascii.eqb c ":"%char); simpl; [discriminate |].
    intros H. f_equal. apply IH, H.
Qed.

(** X2.  Only the part of an expiration key before its first colon is read
    as a date: the suffix (the days-to-expiration count) never matters, and
    a key without a colon is parsed whole. *)
Theorem parse_key_reads_prefix (iso_date : string -> result Z) (a b : string) :
  has_colon a = false ->
  parse_key iso_date (a ++ String ":"%char b) = iso_date a
  /\ parse_key iso_date a = iso_date a.
Proof.
  intros H. unfold parse_key.
  rewrite split_head_append, split_head_no_colon by exact H. split; reflexivity.
Qed.

Lemma parse_key_reads_prefix_sample :
  parse_key iso_date_ymd ("2024-01-31" ++ String ":"%char "25") = iso_date_ymd "2024-01-31"
  /\ parse_key iso_date_ymd "2024-01-31" = iso_date_ymd "2024-01-31".
Proof.
  apply (parse_key_reads_prefix iso_date_ymd "2024-01-31" "25"). reflexivity.
Defined.

(** X3.  The target expiration is the trigger's calendar date plus 30 days,
    whatever the time of day of the trigger timestamp. *)
Theorem target_date_is_30_days_later (dt n : Z) :
  date_of (add_days dt n) = date_of dt + n.
Proof.
  unfold date_of, add_days, ms_per_day. apply Z.div_add. discriminate.
Qed.

(** ** The loop of [analyze_ticker] *)

Lemma loc_listed (s : Series) (dt : Z) :
  In dt (index s) -> exists price, loc s dt = Ok price.
Proof.
  unfold index, loc. intros H. apply in_map_iff in H as [p [Hp Hin]].
  assert (Hf : In p (filter (fun q => fst q =? dt) (items s))).
  { apply filter_In. split; [exact Hin | apply Z.eqb_eq, Hp]. }
  destruct (filter (fun q => fst q =? dt) (items s)) as [| q [| q' r]]; [destruct Hf | |]; eauto.
Qed.

Lemma drop_dates_listed (s : Series) (dt : Z) :
  In dt (drop_dates s) -> In dt (index s).
Proof.
  intros H. apply drop_dates_In in H as [j [Hj _]]. eapply nth_error_In, Hj.
Qed.

Section AnalyzeFacts.
Variable iso_date : string -> result Z.
Variable py_float : string -> result float.
Variable py_str : float -> string.

Lemma settle_step (s : Series) (m : Match) (trials successes trials' successes' : nat) :
  settle iso_date s m (trials, successes) = Ok (trials', successes') ->
  (trials' = trials /\ successes' = successes)
  \/ (trials' = S trials /\ (successes' = successes \/ successes' = S successes)).
Proof.
  unfold settle.
  destruct (volatility (opt m)) as [iv |]; [| intros E; injection E as <- <-; auto].
  destruct (iv <=? iv_threshold)%float; [intros E; injection E as <- <-; auto |].
  destruct (parse_key iso_date (best_key m)) as [d |]; simpl; [| discriminate].
  destruct (future_prices s d) as [| p r]; [intros E; injection E as <- <-; auto |].
  destruct (strike m <? snd p)%float; intros E; injection E as <- <-; auto.
Qed.

Lemma trigger_step_bounds (client : Client) (symbol : string) (s : Series) (dt : Z)
  (trials successes trials' successes' : nat) :
  trigger_step iso_date py_float py_str client symbol s dt (trials, successes)
  = Ok (trials', successes') ->
  (trials' = trials /\ successes' = successes)
  \/ (trials' = S trials /\ (successes' = successes \/ successes' = S successes)).
Proof.
  unfold trigger_step.
  destruct (match_contract iso_date py_float py_str client symbol s dt) as [[m |] |];
    simpl; [apply settle_step | | discriminate].
  intros E. injection E as <- <-. auto.
Qed.

Lemma analyze_loop_bounds (client : Client) (symbol : string) (s : Series)
  (dts : list Z) (trials successes trials' successes' : nat) :
  analyze_loop iso_date py_float py_str client symbol s dts (trials, successes)
  = Ok (trials', successes') ->
  (trials <= trials')%nat /\ (successes <= successes')%nat
  /\ (trials' - trials <= List.length dts)%nat
  /\ (successes' - successes <= trials' - trials)%nat.
Proof.
  revert trials successes.
  induction dts as [| dt dts IH]; intros trials successes; simpl.
  - intros E. injection E as <- <-. lia.
  - destruct (trigger_step iso_date py_float py_str client symbol s dt (trials, successes))
      as [[t1 s1] |] eqn:Hstep; simpl; [| discriminate].
    intros H. apply IH in H. apply trigger_step_bounds in Hstep. lia.
Qed.

(** X4.  Whenever [analyze_ticker] returns, successes are at most trials,
    and trials are at most the number of trigger dates, hence at most the
    number of non-missing closes less 4. *)
Theorem successes_le_trials_le_triggers (client : Client) (closes : Series)
  (trials successes : nat) :
  analyze_ticker iso_date py_float py_str client closes = Ok (trials, successes) ->
  (successes <= trials)%nat
  /\ (trials <= List.length (drop_dates (dropna closes)))%nat
  /\ (trials <= List.length (items (dropna closes)) - 4)%nat.
Proof.
  unfold analyze_ticker. intros H. apply analyze_loop_bounds in H.
  destruct (drop_count_bounds (dropna closes)) as [Hlen Hle]. lia.
Qed.

(** X5.  A series with at most four non-missing closes yields no trigger:
    the result is [(0, 0)] and the client is never called. *)
Theorem short_series_no_trial (client : Client) (closes : Series) :
  (List.length (items (dropna closes)) <= 4)%nat ->
  analyze_ticker iso_date py_float py_str client closes = Ok (O, O).
Proof.
  intros Hlen. unfold analyze_ticker.
  destruct (drop_count_bounds (dropna closes)) as [Hcount Hle].
  destruct (drop_dates (dropna closes)) as [| dt dts]; [reflexivity |].
  simpl in Hcount. lia.
Qed.

Lemma empty_chain_step (client : Client) (symbol : string) (s : Series) (dt : Z)
  (acc : nat * nat) :
  (forall sym a b, exists resp chain,
      get_option_chain client sym a b = Ok resp /\ json resp = Ok chain
      /\ (putExpDateMap chain = None \/ putExpDateMap chain = Some [])) ->
  In dt (index s) ->
  trigger_step iso_date py_float py_str client symbol s dt acc = Ok acc.
Proof.
  intros Hchain Hdt. unfold trigger_step, match_contract.
  destruct (loc_listed s dt Hdt) as [price ->]. simpl.
  destruct (Hchain symbol (date_of dt) (date_of (add_days dt 30)))
    as [resp [chain [-> [Hjson Hmap]]]]. simpl. rewrite Hjson. simpl.
  destruct Hmap as [-> | ->]; reflexivity.
Qed.

(** X6.  When every chain the provider returns has no expiration (the key
    is missing or the map is empty), every trigger is skipped and the
    analysis returns [(0, 0)], whatever the price series. *)
Theorem empty_chains_no_trial (client : Client) (closes : Series) :
  (forall sym a b, exists resp chain,
      get_option_chain client sym a b = Ok resp /\ json resp = Ok chain
      /\ (putExpDateMap chain = None \/ putExpDateMap chain = Some [])) ->
  analyze_ticker iso_date py_float py_str client closes = Ok (O, O).
Proof.
  intros Hchain. unfold analyze_ticker.
  assert (Hall : forall dts acc,
             (forall dt, In dt dts -> In dt (index (dropna closes))) ->
             analyze_loop iso_date py_float py_str client (name closes) (dropna closes) dts acc
             = Ok acc).
  { induction dts as [| dt dts IH]; intros acc Hin; simpl; [reflexivity |].
    rewrite (empty_chain_step client (name closes) (dropna closes) dt acc Hchain)
      by (apply Hin; left; reflexivity).
    simpl. apply IH. intros; apply Hin; right; assumption. }
  apply Hall. intros dt. apply drop_dates_listed.
Qed.

Lemma analyze_loop_app (client : Client) (symbol : string) (s : Series)
  (dts1 dts2 : list Z) (acc : nat * nat) :
  analyze_loop iso_date py_float py_str client symbol s (dts1 ++ dts2) acc
  = (acc1 <- analyze_loop iso_date py_float py_str client symbol s dts1 acc ;;
     analyze_loop iso_date py_float py_str client symbol s dts2 acc1).
Proof.
  revert acc. induction dts1 as [| dt dts1 IH]; intros acc; simpl; [reflexivity |].
  destruct (trigger_step iso_date py_float py_str client symbol s dt acc) as [acc' |];
    simpl; [apply IH | reflexivity].
Qed.

(** X7.  Nothing in the loop catches an exception: when the triggers
    before [dt] are processed and the step at [dt] raises, the whole
    analysis of the ticker raises that exception and the counts collected
    so far are lost. *)
Theorem first_failing_trigger_aborts (client : Client) (closes : Series)
  (dts1 dts2 : list Z) (dt : Z) (acc1 : nat * nat) (e : exn) :
  drop_dates (dropna closes) = dts1 ++ dt :: dts2 ->
  analyze_loop iso_date py_float py_str client (name closes) (dropna closes) dts1 (O, O)
  = Ok acc1 ->
  trigger_step iso_date py_float py_str client (name closes) (dropna closes) dt acc1
  = Raise e ->
  analyze_ticker iso_date py_float py_str client closes = Raise e.
Proof.
  intros Hdts Hpre Hstep. unfold analyze_ticker.
  rewrite Hdts, analyze_loop_app, Hpre. simpl. rewrite Hstep. reflexivity.
Qed.

(** X8.  An expiration that lists no strike does not skip the trigger:
    [min] is called on an empty list and its [ValueError] leaves the loop
    body. *)
Theorem expiration_without_strikes_raises (client : Client) (symbol : string)
  (s : Series) (dt : Z) (price : located) (resp : Response ChainJson)
  (chain : ChainJson) (put_map : PutMap) (bk : string) (acc : nat * nat) :
  loc s dt = Ok price ->
  get_option_chain client symbol (date_of dt) (date_of (add_days dt 30)) = Ok resp ->
  json resp = Ok chain ->
  putExpDateMap chain = Some put_map ->
  put_map <> [] ->
  nearest_expiration iso_date (date_of (add_days dt 30)) put_map = Ok bk ->
  getitem bk put_map = Ok [] ->
  trigger_step iso_date py_float py_str client symbol s dt acc
  = Raise (ValueError "min() arg is an empty sequence").
Proof.
  intros Hloc Hresp Hjson Hpm Hne Hbk Hsm.
  unfold trigger_step, match_contract.
  rewrite Hloc. simpl. rewrite Hresp. simpl. rewrite Hjson. simpl. rewrite Hpm.
  destruct put_map as [| kv rest]; [congruence |].
  rewrite Hbk. simpl. rewrite Hsm. reflexivity.
Qed.

(** X9.  A strike whose list of contracts is empty does not skip the
    trigger either: taking its first entry raises [IndexError]. *)
Theorem strike_without_contracts_raises (client : Client) (symbol : string)
  (s : Series) (dt : Z) (price : located) (resp : Response ChainJson)
  (chain : ChainJson) (put_map : PutMap) (bk : string) (sm : StrikesMap)
  (x : float) (acc : nat * nat) :
  loc s dt = Ok price ->
  get_option_chain client symbol (date_of dt) (date_of (add_days dt 30)) = Ok resp ->
  json resp = Ok chain ->
  putExpDateMap chain = Some put_map ->
  put_map <> [] ->
  nearest_expiration iso_date (date_of (add_days dt 30)) put_map = Ok bk ->
  getitem bk put_map = Ok sm ->
  nearest_strike py_float price sm = Ok x ->
  getitem (py_str x) sm = Ok [] ->
  trigger_step iso_date py_float py_str client symbol s dt acc = Raise IndexError.
Proof.
  intros Hloc Hresp Hjson Hpm Hne Hbk Hsm Hx Hentries.
  unfold trigger_step, match_contract.
  rewrite Hloc. simpl. rewrite Hresp. simpl. rewrite Hjson. simpl. rewrite Hpm.
  destruct put_map as [| kv rest]; [congruence |].
  rewrite Hbk. simpl. rewrite Hsm. simpl. rewrite Hx. simpl. rewrite Hentries.
  reflexivity.
Qed.

(** X10.  The volatility filter discards on [iv <= 0.60]; a NaN volatility
    fails that comparison, so the trigger is recorded as a trial. *)
Theorem nan_volatility_recorded (client : Client) (symbol : string) (s : Series)
  (dt : Z) (m : Match) (iv : float) (trials successes : nat) :
  match_contract iso_date py_float py_str client symbol s dt = Ok (Some m) ->
  volatility (opt m) = Some iv ->
  is_nan iv = true ->
  exists successes',
    trigger_step iso_date py_float py_str client symbol s dt (trials, successes)
    = Ok (S trials, successes').
Proof.
  intros Hm Hiv Hnan.
  assert (Hc : (iv <=? iv_threshold)%float = false)
    by (apply leb_nan_l, is_nan_true, Hnan).
  destruct (match_contract_key_parses iso_date py_float py_str _ _ _ _ _ Hm)
    as [expiration Hexp].
  unfold trigger_step. rewrite Hm. simpl. unfold settle.
  rewrite Hiv, Hc, Hexp. simpl.
  destruct (future_prices s expiration) as [| p r]; [eauto |].
  destruct (strike m <? snd p)%float; eauto.
Qed.

End AnalyzeFacts.

(** ** The loop facts on the worked payloads *)

Lemma successes_le_trials_le_triggers_sample :
  (1 <= 1)%nat
  /\ (1 <= List.length (drop_dates (dropna sample_series)))%nat
  /\ (1 <= List.length (items (dropna sample_series)) - 4)%nat.
Proof.
  apply (successes_le_trials_le_triggers iso_date_ymd float_of_decimal str_of_float
           sample_client sample_series 1 1).
  vm_compute. reflexivity.
Defined.

Lemma short_series_no_trial_sample :
  analyze_ticker iso_date_ymd float_of_decimal str_of_float down_client
    (mkSeries "X" [(day 1, 100%float); (day 2, nan); (day 3, 80%float);
                   (day 4, 70%float); (day 5, 60%float)])
  = Ok (O, O).
Proof.
  apply (short_series_no_trial iso_date_ymd float_of_decimal str_of_float).
  vm_compute. lia.
Defined.

Lemma empty_chains_no_trial_sample :
  analyze_ticker iso_date_ymd float_of_decimal str_of_float unsorted_client sample_series
  = Ok (O, O).
Proof.
  apply (empty_chains_no_trial iso_date_ymd float_of_decimal str_of_float).
  intros sym a b. do 2 eexists. split; [reflexivity | split; [reflexivity |]].
  right. reflexivity.
Defined.

Lemma first_failing_trigger_aborts_sample :
  analyze_ticker iso_date_ymd float_of_decimal str_of_float bare_client sample_series
  = Raise (ValueError "min() arg is an empty sequence").
Proof.
  apply (first_failing_trigger_aborts iso_date_ymd float_of_decimal str_of_float
           bare_client sample_series [] [] (day 19728) (O, O)).
  - vm_compute. reflexivity.
  - reflexivity.
  - vm_compute. reflexivity.
Defined.

Lemma expiration_without_strikes_raises_sample :
  trigger_step iso_date_ymd float_of_decimal str_of_float bare_client "X"
    sample_series (day 19728) (O, O)
  = Raise (ValueError "min() arg is an empty sequence").
Proof.
  apply (expiration_without_strikes_raises iso_date_ymd float_of_decimal str_of_float
           bare_client "X" sample_series (day 19728) (Scalar 88)
           (mkResponse (Ok tt) (Ok (mkChainJson (Some [("2024-01-31:25"%string, [])]))))
           (mkChainJson (Some [("2024-01-31:25"%string, [])]))
           [("2024-01-31:25"%string, [])] "2024-01-31:25").
  - vm_compute. reflexivity.
  - reflexivity.
  - reflexivity.
  - reflexivity.
  - discriminate.
  - vm_compute. reflexivity.
  - reflexivity.
Defined.

Lemma strike_without_contracts_raises_sample :
  trigger_step iso_date_ymd float_of_decimal str_of_float hollow_client "X"
    sample_series (day 19728) (O, O)
  = Raise IndexError.
Proof.
  apply (strike_without_contracts_raises iso_date_ymd float_of_decimal str_of_float
           hollow_client "X" sample_series (day 19728) (Scalar 88)
           (mkResponse (Ok tt)
              (Ok (mkChainJson (Some [("2024-01-31:25"%string, [("90.0"%string, [])])]))))
           (mkChainJson (Some [("2024-01-31:25"%string, [("90.0"%string, [])])]))
           [("2024-01-31:25"%string, [("90.0"%string, [])])] "2024-01-31:25"
           [("90.0"%string, [])] 90%float).
  - vm_compute. reflexivity.
  - reflexivity.
  - reflexivity.
  - reflexivity.
  - discriminate.
  - vm_compute. reflexivity.
  - reflexivity.
  - vm_compute. reflexivity.
  - vm_compute. reflexivity.
Defined.

Lemma nan_volatility_recorded_sample :
  exists successes',
    trigger_step iso_date_ymd float_of_decimal str_of_float nan_client "X"
      sample_series (day 19728) (O, O)
    = Ok (1%nat, successes').
Proof.
  apply (nan_volatility_recorded iso_date_ymd float_of_decimal str_of_float
           nan_client "X" sample_series (day 19728)
           (mkMatch "2024-01-31:25" 90%float (mkContract (Some nan))) nan O O).
  - vm_compute. reflexivity.
  - reflexivity.
  - reflexivity.
Defined.

(** ** The two fetchers side by side *)

Lemma closes_of_frame_empty (symbol : string) :
  closes_of_frame symbol [] = Raise (KeyError "datetime").
Proof. reflexivity. Qed.

(** X11.  [fetch_daily_closes] and the worker [_one] return a series in
    exactly the same cases, and then the same one; a returned series bears
    the ticker's name and is never empty. *)
Theorem fetchers_agree_on_success (client : Client) (symbol : string)
  (start_datetime end_datetime : Z) (s : Series) :
  (fetch_daily_closes client symbol start_datetime end_datetime = Ok s <->
   _one client start_datetime end_datetime symbol = Ok s)
  /\ (_one client start_datetime end_datetime symbol = Ok s ->
      name s = symbol /\ items s <> []).
Proof.
  unfold fetch_daily_closes, _one.
  destruct (get_price_history_every_day client symbol start_datetime end_datetime)
    as [resp |]; simpl; [| split; [tauto | discriminate]].
  destruct (raise_for_status resp); simpl; [| split; [tauto | discriminate]].
  destruct (json resp) as [js |]; simpl; [| split; [tauto | discriminate]].
  destruct (candles_or_empty js) as [| c data] eqn:Hdata.
  - rewrite closes_of_frame_empty. split; [split; discriminate | discriminate].
  - split; [tauto |].
    rewrite closes_of_frame_nonempty by discriminate.
    intros E. injection E as <-. simpl. split; [reflexivity | discriminate].
Qed.

(** ** The table built by [fetch_all_closes] *)

Lemma union_index_In (l seen : list Z) (x : Z) :
  In x (union_index seen l) <-> In x l /\ ~ In x seen.
Proof.
  revert seen. induction l as [| a l IH]; intros seen; simpl.
  - tauto.
  - destruct (existsb (Z.eqb a) seen) eqn:Hex.
    + apply existsb_exists in Hex as [y [Hy Hay]]. apply Z.eqb_eq in Hay. subst y.
      rewrite IH. split.
      * tauto.
      * intros [[-> | Hx] Hn]; [contradiction | tauto].
    + assert (Ha : ~ In a seen).
      { intros Hin. apply not_true_iff_false in Hex. apply Hex.
        apply existsb_exists. exists a. split; [exact Hin | apply Z.eqb_refl]. }
      simpl. rewrite IH. simpl. split.
      * intros [-> | [Hx Hn]]; [tauto |]. split; [tauto |]. intros H. apply Hn. tauto.
      * intros [[-> | Hx] Hn]; [tauto |].
        destruct (Z.eq_dec a x) as [-> | Hne]; [tauto |].
        right. split; [exact Hx |]. intros [E | H]; [congruence | contradiction].
Qed.

Lemma union_index_NoDup (l seen : list Z) : NoDup (union_index seen l).
Proof.
  revert seen. induction l as [| a l IH]; intros seen; simpl.
  - constructor.
  - destruct (existsb (Z.eqb a) seen); [apply IH |].
    constructor; [| apply IH].
    rewrite union_index_In. simpl. tauto.
Qed.

Lemma insert_row_permutation (r : Z * list float) (l : list (Z * list float)) :
  Permutation (insert_row r l) (r :: l).
Proof.
  induction l as [| h t IH]; simpl.
  - apply Permutation_refl.
  - destruct (fst r <=? fst h); [apply Permutation_refl |].
    eapply Permutation_trans; [apply perm_skip, IH | apply perm_swap].
Qed.

Lemma sort_index_permutation (df : DataFrame) :
  Permutation (rows (sort_index df)) (rows df).
Proof.
  unfold sort_index. simpl.
  induction (rows df) as [| r l IH]; simpl; [constructor |].
  eapply Permutation_trans; [apply insert_row_permutation | apply perm_skip, IH].
Qed.

Lemma sorted_nodup_strict (l : list Z) :
  Sorted Z.le l -> NoDup l -> StronglySorted Z.lt l.
Proof.
  intros Hs Hn.
  apply Sorted_StronglySorted in Hs; [| intros x y z; apply Z.le_trans].
  induction Hs as [| a l Hs IH Hall]; [constructor |].
  inversion Hn as [| ? ? Hnot Hn']; subst.
  constructor; [apply IH, Hn' |].
  rewrite Forall_forall in *. intros x Hx.
  specialize (Hall x Hx). assert (a <> x) by (intros ->; contradiction). lia.
Qed.

Lemma strictly_sorted_unique (l1 l2 : list Z) :
  StronglySorted Z.lt l1 -> StronglySorted Z.lt l2 ->
  (forall x, In x l1 <-> In x l2) -> l1 = l2.
Proof.
  intros H1. revert l2.
  induction H1 as [| a l1 H1 IH Ha]; intros l2 H2 Hin.
  - destruct l2 as [| b l2]; [reflexivity |].
    exfalso. apply (proj2 (Hin b)). left. reflexivity.
  - destruct H2 as [| b l2 H2 Hb].
    + exfalso. apply (proj1 (Hin a)). left. reflexivity.
    + rewrite Forall_forall in Ha, Hb.
      assert (a = b).
      { destruct (proj1 (Hin a) (or_introl eq_refl)) as [E | Hal2]; [congruence |].
        destruct (proj2 (Hin b) (or_introl eq_refl)) as [E | Hbl1]; [congruence |].
        specialize (Ha b Hbl1). specialize (Hb a Hal2). lia. }
      subst b. f_equal. apply IH; [exact H2 |].
      intros x. split; intros Hx.
      * destruct (proj1 (Hin x) (or_intror Hx)) as [E | H]; [| exact H].
        subst x. specialize (Ha a Hx). lia.
      * destruct (proj2 (Hin x) (or_intror Hx)) as [E | H]; [| exact H].
        subst x. specialize (Hb a Hx). lia.
Qed.

(** The shape of the table when the call succeeds on series without a
    repeated timestamp: the series in completion order, one row per label
    of their union, each row holding every series' cell at that label. *)
Lemma fetch_all_closes_frame (as_completed : list Future -> list Future)
  (client : Client) (symbols : list string) (st en : Z) :
  (forall l, Permutation (as_completed l) l) ->
  (exists sym s, In sym symbols /\ _one client st en sym = Ok s) ->
  (forall sym s, In sym symbols -> _one client st en sym = Ok s ->
     has_duplicates (index s) = false) ->
  exists df series,
    snd (fetch_all_closes as_completed client symbols st en) = Ok df
    /\ columns df = map name series
    /\ (forall s, In s series <->
          exists sym, In sym symbols /\ _one client st en sym = Ok s)
    /\ Permutation (rows df)
         (map (fun lbl => (lbl, map (fun s => cell s lbl) series))
              (union_index [] (flat_map index series)))
    /\ Sorted Z.le (map fst (rows df)).
Proof.
  intros Hperm [sym0 [s0 [Hsym0 Hs0]]] Hdup.
  unfold fetch_all_closes.
  set (futures := map (fun s => (s, _one client st en s)) symbols).
  assert (Hin : forall f, In f (as_completed futures) <-> In f futures).
  { intros f. split; apply Permutation_in;
      [apply Hperm | apply Permutation_sym, Hperm]. }
  destruct (collect (as_completed futures)) as [series log] eqn:Hc.
  assert (Hseries : forall s, In s series <->
            exists sym, In sym symbols /\ _one client st en sym = Ok s).
  { intros s. replace series with (fst (collect (as_completed futures)))
      by (rewrite Hc; reflexivity).
    rewrite collect_series_In. split.
    - intros [sym H]. apply Hin, futures_In in H. simpl in H. exists sym. intuition congruence.
    - intros [sym [H1 H2]]. exists sym. apply Hin, futures_In. simpl. auto. }
  assert (Hnodup : existsb (fun s => has_duplicates (index s)) series = false).
  { apply not_true_is_false. intros H. apply existsb_exists in H as [s [Hs Hd]].
    apply Hseries in Hs as [sym [H1 H2]]. rewrite (Hdup sym s H1 H2) in Hd. discriminate. }
  assert (Hne : series <> []).
  { intros E. assert (H : In s0 series) by (apply Hseries; eauto). rewrite E in H. exact H. }
  simpl. unfold pd_concat. destruct series as [| s1 rest]; [congruence |].
  rewrite Hnodup. simpl.
  eexists. exists (s1 :: rest). split; [reflexivity |].
  split; [reflexivity | split; [exact Hseries | split]].
  - match goal with |- Permutation (rows (sort_index ?d)) _ =>
      apply (sort_index_permutation d) end.
  - match goal with |- Sorted _ (map fst (rows (sort_index ?d))) =>
      apply (sort_index_sorted d) end.
Qed.

Lemma frame_labels (df : DataFrame) (series : list Series) :
  Permutation (rows df)
    (map (fun lbl => (lbl, map (fun s => cell s lbl) series))
         (union_index [] (flat_map index series))) ->
  Permutation (map fst (rows df)) (union_index [] (flat_map index series)).
Proof.
  intros H. apply (Permutation_map fst) in H.
  rewrite map_map in H. simpl in H. rewrite map_id in H. exact H.
Qed.

Lemma frame_row_index (as_completed : list Future -> list Future)
  (client : Client) (symbols : list string) (start_datetime end_datetime : Z) :
  (forall l, Permutation (as_completed l) l) ->
  (exists sym s, In sym symbols /\ _one client start_datetime end_datetime sym = Ok s) ->
  (forall sym s, In sym symbols ->
     _one client start_datetime end_datetime sym = Ok s ->
     has_duplicates (index s) = false) ->
  exists df,
    snd (fetch_all_closes as_completed client symbols start_datetime end_datetime) = Ok df
    /\ StronglySorted Z.lt (map fst (rows df))
    /\ (forall lbl, In lbl (map fst (rows df)) <->
          exists sym s, In sym symbols
            /\ _one client start_datetime end_datetime sym = Ok s
            /\ In lbl (index s)).
Proof.
  intros Hperm Hsome Hdup.
  destruct (fetch_all_closes_frame as_completed client symbols start_datetime end_datetime
              Hperm Hsome Hdup) as [df [series [Hrun [_ [Hseries [Hrows Hsorted]]]]]].
  exists df. apply frame_labels in Hrows.
  split; [exact Hrun | split].
  - apply sorted_nodup_strict; [exact Hsorted |].
    apply (Permutation_NoDup (Permutation_sym Hrows)), union_index_NoDup.
  - intros lbl. split.
    + intros H. apply (Permutation_in _ Hrows), union_index_In in H as [H _].
      apply in_flat_map in H as [s [Hs Hl]].
      apply Hseries in Hs as [sym [H1 H2]]. eauto.
    + intros [sym [s [H1 [H2 Hl]]]].
      apply (Permutation_in _ (Permutation_sym Hrows)), union_index_In.
      split; [| tauto]. apply in_flat_map. exists s. split; [| exact Hl].
      apply Hseries. eauto.
Qed.

(** X12.  The row index of the price table is the strictly ascending union
    of the timestamps of the tickers that were fetched: a label is a row
    exactly when some successful series has it, and no label occurs
    twice. *)
Theorem rows_are_sorted_union (as_completed : list Future -> list Future)
  (client : Client) (symbols : list string) (start_datetime end_datetime : Z) :
  (forall l, Permutation (as_completed l) l) ->
  (exists sym s, In sym symbols /\ _one client start_datetime end_datetime sym = Ok s) ->
  (forall sym s, In sym symbols ->
     _one client start_datetime end_datetime sym = Ok s ->
     has_duplicates (index s) = false) ->
  exists df,
    snd (fetch_all_closes as_completed client symbols start_datetime end_datetime) = Ok df
    /\ StronglySorted Z.lt (map fst (rows df))
    /\ (forall lbl, In lbl (map fst (rows df)) <->
          exists sym s, In sym symbols
            /\ _one client start_datetime end_datetime sym = Ok s
            /\ In lbl (index s)).
Proof. exact (frame_row_index as_completed client symbols start_datetime end_datetime). Qed.

Lemma pd_concat_columns (series : list Series) (df : DataFrame) :
  pd_concat series = Ok df -> columns df = map name series.
Proof.
  unfold pd_concat. destruct series as [| s0 rest]; [discriminate |].
  destruct (existsb _ (s0 :: rest)).
  - destruct (forallb _ rest); [| discriminate].
    intros E. injection E as <-. reflexivity.
  - intros E. injection E as <-. reflexivity.
Qed.

Lemma fetch_all_closes_columns (as_completed : list Future -> list Future)
  (client : Client) (symbols : list string) (st en : Z) (df : DataFrame) :
  (forall l, Permutation (as_completed l) l) ->
  snd (fetch_all_closes as_completed client symbols st en) = Ok df ->
  columns df
  = succeeded (as_completed (map (fun s => (s, _one client st en s)) symbols)).
Proof.
  intros Hperm. unfold fetch_all_closes.
  set (futures := map (fun s => (s, _one client st en s)) symbols).
  destruct (collect (as_completed futures)) as [series log] eqn:Hc. simpl.
  destruct (pd_concat series) as [df0 |] eqn:Hdf; simpl; [| discriminate].
  intros E. injection E as <-. simpl.
  rewrite (pd_concat_columns _ _ Hdf).
  replace series with (fst (collect (as_completed futures))) by (rewrite Hc; reflexivity).
  apply collect_names. intros sym s H.
  apply (Permutation_in _ (Hperm futures)), futures_In in H. simpl in H.
  destruct H as [_ H]. symmetry in H. apply (one_name _ _ _ _ _ H).
Qed.

(** X13.  Two runs over the same responses that differ only in the order
    in which the fetches complete give the same row index and the same
    columns up to their order. *)
Theorem table_depends_on_order_by_columns_only
  (as_completed1 as_completed2 : list Future -> list Future)
  (client : Client) (symbols : list string) (start_datetime end_datetime : Z) :
  (forall l, Permutation (as_completed1 l) l) ->
  (forall l, Permutation (as_completed2 l) l) ->
  (exists sym s, In sym symbols /\ _one client start_datetime end_datetime sym = Ok s) ->
  (forall sym s, In sym symbols ->
     _one client start_datetime end_datetime sym = Ok s ->
     has_duplicates (index s) = false) ->
  exists df1 df2,
    snd (fetch_all_closes as_completed1 client symbols start_datetime end_datetime) = Ok df1
    /\ snd (fetch_all_closes as_completed2 client symbols start_datetime end_datetime) = Ok df2
    /\ map fst (rows df1) = map fst (rows df2)
    /\ Permutation (columns df1) (columns df2).
Proof.
  intros Hperm1 Hperm2 Hsome Hdup.
  destruct (frame_row_index as_completed1 client symbols start_datetime end_datetime
              Hperm1 Hsome Hdup) as [df1 [Hrun1 [Hs1 Hin1]]].
  destruct (frame_row_index as_completed2 client symbols start_datetime end_datetime
              Hperm2 Hsome Hdup) as [df2 [Hrun2 [Hs2 Hin2]]].
  exists df1, df2. split; [exact Hrun1 | split; [exact Hrun2 | split]].
  - apply strictly_sorted_unique; [exact Hs1 | exact Hs2 |].
    intros x. rewrite Hin1, Hin2. reflexivity.
  - rewrite (fetch_all_closes_columns _ _ _ _ _ _ Hperm1 Hrun1).
    rewrite (fetch_all_closes_columns _ _ _ _ _ _ Hperm2 Hrun2).
    unfold succeeded. apply Permutation_map, filter_permutation.
    eapply Permutation_trans; [apply Hperm1 | apply Permutation_sym, Hperm2].
Qed.

(** X14.  Each failed fetch is reported once with its own error: the
    printed failure lines are exactly the pairs of a requested ticker and
    the exception its fetch raised, whatever the completion order. *)
Theorem failures_reported_individually (as_completed : list Future -> list Future)
  (client : Client) (symbols : list string) (start_datetime end_datetime : Z)
  (sym : string) (e : exn) :
  (forall l, Permutation (as_completed l) l) ->
  (In (sym, e) (fst (fetch_all_closes as_completed client symbols start_datetime end_datetime))
   <-> In sym symbols /\ _one client start_datetime end_datetime sym = Raise e)
  /\ List.length (fst (fetch_all_closes as_completed client symbols start_datetime end_datetime))
     = List.length
         (filter (fun s => negb (is_ok (_one client start_datetime end_datetime s))) symbols).
Proof.
  intros Hperm. unfold fetch_all_closes.
  set (futures := map (fun s => (s, _one client start_datetime end_datetime s)) symbols).
  destruct (collect (as_completed futures)) as [series log] eqn:Hc. simpl.
  assert (Hlog : log = snd (collect (as_completed futures))) by (rewrite Hc; reflexivity).
  split.
  - rewrite Hlog, collect_log_In. split.
    + intros H. apply (Permutation_in _ (Hperm futures)), futures_In in H.
      simpl in H. intuition congruence.
    + intros [H1 H2]. apply (Permutation_in _ (Permutation_sym (Hperm futures))).
      apply futures_In. simpl. auto.
  - assert (Hcount : forall done,
              List.length (snd (collect done))
              = List.length (filter (fun f => negb (is_ok (snd f))) done)).
    { induction done as [| [sy [s0 | e0]] done IH]; simpl; [reflexivity | |];
        destruct (collect done) as [ss lg]; simpl in *; [exact IH | f_equal; exact IH]. }
    rewrite Hlog, Hcount.
    rewrite (Permutation_length (filter_permutation _ _ _ (Hperm futures))).
    unfold futures. clear. induction symbols as [| s l IH]; simpl; [reflexivity |].
    destruct (is_ok (_one client start_datetime end_datetime s)); simpl; [| f_equal]; exact IH.
Qed.

(** X15.  When every fetch fails the call raises the [ValueError] of
    [pd.concat] on an empty list, whatever the completion order. *)
Theorem every_fetch_failing_raises (as_completed : list Future -> list Future)
  (client : Client) (symbols : list string) (start_datetime end_datetime : Z) :
  (forall l, Permutation (as_completed l) l) ->
  (forall sym, In sym symbols ->
     is_ok (_one client start_datetime end_datetime sym) = false) ->
  snd (fetch_all_closes as_completed client symbols start_datetime end_datetime)
  = Raise (ValueError "No objects to concatenate").
Proof.
  exact (fetch_all_closes_all_fail as_completed client symbols start_datetime end_datetime).
Qed.

(** ** From the table back to a ticker's series *)

Lemma has_duplicates_NoDup (l : list Z) : has_duplicates l = false -> NoDup l.
Proof.
  induction l as [| x l IH]; simpl; [constructor |].
  intros H. apply orb_false_iff in H as [Hx Hl].
  constructor; [| apply IH, Hl].
  intros Hin. apply not_true_iff_false in Hx. apply Hx.
  apply existsb_exists. exists x. split; [exact Hin | apply Z.eqb_refl].
Qed.

Lemma cell_present (s : Series) (lbl : Z) (v : float) :
  has_duplicates (index s) = false -> In (lbl, v) (items s) -> cell s lbl = v.
Proof.
  unfold cell, index. intros Hd. apply has_duplicates_NoDup in Hd.
  induction (items s) as [| [l0 v0] l IH]; simpl in *; [tauto |].
  inversion Hd as [| ? ? Hnot Hd']; subst.
  intros [E | Hin].
  - injection E as -> ->. rewrite Z.eqb_refl. reflexivity.
  - destruct (Z.eqb_spec l0 lbl) as [-> | Hne].
    + exfalso. apply Hnot. apply in_map_iff. exists (lbl, v). auto.
    + apply IH; assumption.
Qed.

Lemma cell_absent (s : Series) (lbl : Z) : ~ In lbl (index s) -> cell s lbl = nan.
Proof.
  unfold cell, index.
  induction (items s) as [| [l0 v0] l IH]; simpl; [reflexivity |].
  intros H. destruct (Z.eqb_spec l0 lbl) as [-> | Hne]; [tauto |].
  apply IH. tauto.
Qed.

Lemma position_first (sym : string) (cols : list string) (j : nat) :
  position sym cols = Some j -> nth_error cols j = Some sym.
Proof.
  revert j. induction cols as [| c cols IH]; intros j; simpl; [discriminate |].
  destruct (String.eqb_spec sym c) as [-> | Hne].
  - intros E. injection E as <-. reflexivity.
  - destruct (position sym cols) as [k |]; simpl; [| discriminate].
    intros E. injection E as <-. simpl. apply IH. reflexivity.
Qed.

Lemma strictly_sorted_filter (f : Z * float -> bool) (l : list (Z * float)) :
  StronglySorted Z.lt (map fst l) -> StronglySorted Z.lt (map fst (filter f l)).
Proof.
  induction l as [| p l IH]; simpl; [constructor |].
  intros H. inversion H as [| ? ? Hs Hall]; subst.
  destruct (f p); simpl; [| apply IH, Hs].
  constructor; [apply IH, Hs |].
  rewrite Forall_forall in *. intros x Hx. apply Hall.
  apply in_map_iff in Hx as [q [<- Hq]]. apply filter_In in Hq as [Hq _].
  apply in_map. exact Hq.
Qed.

Lemma frame_column_of (as_completed : list Future -> list Future)
  (client : Client) (symbols : list string) (st en : Z) (sym : string) (s : Series) :
  (forall l, Permutation (as_completed l) l) ->
  In sym symbols ->
  _one client st en sym = Ok s ->
  (forall sym' s', In sym' symbols -> _one client st en sym' = Ok s' ->
     has_duplicates (index s') = false) ->
  exists df,
    snd (fetch_all_closes as_completed client symbols st en) = Ok df
    /\ StronglySorted Z.lt (map fst (rows df))
    /\ (forall lbl, In lbl (index s) -> In lbl (map fst (rows df)))
    /\ column df sym
       = Ok (mkSeries sym (map (fun r => (fst r, cell s (fst r))) (rows df))).
Proof.
  intros Hperm Hsym Hs Hdup.
  assert (Hsome : exists sym0 s0, In sym0 symbols /\ _one client st en sym0 = Ok s0)
    by eauto.
  destruct (fetch_all_closes_frame as_completed client symbols st en Hperm Hsome Hdup)
    as [df [series [Hrun [Hcols [Hseries [Hrows Hsorted]]]]]].
  destruct (frame_row_index as_completed client symbols st en Hperm Hsome Hdup)
    as [df' [Hrun' [Hstrict Hlabels]]].
  rewrite Hrun in Hrun'. injection Hrun' as <-.
  exists df. split; [exact Hrun | split; [exact Hstrict | split]].
  - intros lbl Hl. apply Hlabels. eauto.
  - unfold column.
    assert (Hlisted : existsb (String.eqb sym) (columns df) = true).
    { apply existsb_exists. exists sym. split; [| apply String.eqb_refl].
      rewrite Hcols. apply in_map_iff. exists s. split.
      - apply (one_name _ _ _ _ _ Hs).
      - apply Hseries. eauto. }
    destruct (position_listed sym (columns df) Hlisted) as [j Hj].
    rewrite Hj. do 2 f_equal.
    apply position_first in Hj. rewrite Hcols, nth_error_map in Hj.
    destruct (nth_error series j) as [sj |] eqn:Hsj; [| discriminate].
    simpl in Hj. injection Hj as Hname.
    assert (sj = s).
    { destruct (proj1 (Hseries sj) (nth_error_In _ _ Hsj)) as [sym' [H1 H2]].
      rewrite (one_name _ _ _ _ _ H2) in Hname. subst sym'. congruence. }
    subst sj.
    apply map_ext_in. intros r Hr.
    apply (Permutation_in _ Hrows), in_map_iff in Hr as [lbl [<- _]]. simpl.
    f_equal. apply nth_error_nth. rewrite nth_error_map, Hsj. reflexivity.
Qed.

(** X16.  The column of a fetched ticker, with its missing cells dropped,
    is that ticker's own series with its NaN closes dropped and put in
    ascending date order: the outer join adds only NaN cells (never a
    zero or a neighbour's value) and [dropna] removes them again. *)
Theorem column_recovers_series (as_completed : list Future -> list Future)
  (client : Client) (symbols : list string) (start_datetime end_datetime : Z)
  (sym : string) (s : Series) :
  (forall l, Permutation (as_completed l) l) ->
  NoDup symbols ->
  In sym symbols ->
  _one client start_datetime end_datetime sym = Ok s ->
  (forall sym' s', In sym' symbols ->
     _one client start_datetime end_datetime sym' = Ok s' ->
     has_duplicates (index s') = false) ->
  exists df col,
    snd (fetch_all_closes as_completed client symbols start_datetime end_datetime) = Ok df
    /\ column df sym = Ok col
    /\ index col = map fst (rows df)
    /\ (forall lbl v, In (lbl, v) (items col) ->
          In (lbl, v) (items s) \/ (~ In lbl (index s) /\ v = nan))
    /\ (forall p, In p (items (dropna col)) <-> In p (items (dropna s)))
    /\ StronglySorted Z.lt (index (dropna col)).
Proof.
  intros Hperm _ Hsym Hs Hdup.
  destruct (frame_column_of as_completed client symbols start_datetime end_datetime
              sym s Hperm Hsym Hs Hdup) as [df [Hrun [Hstrict [Hlabels Hcol]]]].
  assert (Hnd := Hdup sym s Hsym Hs).
  set (col := mkSeries sym (map (fun r => (fst r, cell s (fst r))) (rows df))).
  assert (Hindex : index col = map fst (rows df)).
  { unfold index, col. simpl. rewrite map_map. reflexivity. }
  assert (Hcell : forall lbl v, In (lbl, v) (items col) ->
            In lbl (map fst (rows df)) /\ v = cell s lbl).
  { intros lbl v H. unfold col in H. simpl in H.
    apply in_map_iff in H as [r [E Hr]]. injection E as <- <-.
    split; [apply in_map, Hr | reflexivity]. }
  assert (Hown : forall lbl, In lbl (index s) -> In (lbl, cell s lbl) (items s)).
  { intros lbl H. unfold index in H. apply in_map_iff in H as [[l0 v0] [E Hin]].
    simpl in E. subst l0. rewrite (cell_present s lbl v0 Hnd Hin). exact Hin. }
  exists df, col. split; [exact Hrun | split; [exact Hcol | split; [exact Hindex | split; [| split]]]].
  - intros lbl v H. apply Hcell in H as [_ ->].
    destruct (in_dec Z.eq_dec lbl (index s)) as [Hin | Hout].
    + left. apply Hown, Hin.
    + right. split; [exact Hout | apply cell_absent, Hout].
  - intros [lbl v]. unfold dropna. simpl. rewrite !filter_In. simpl. split.
    + intros [H Hn]. split; [| exact Hn].
      apply Hcell in H as [_ ->].
      destruct (in_dec Z.eq_dec lbl (index s)) as [Hin | Hout]; [apply Hown, Hin |].
      rewrite (cell_absent s lbl Hout) in Hn. discriminate.
    + intros [H Hn]. split; [| exact Hn].
      unfold col. simpl. apply in_map_iff.
      assert (Hl : In lbl (map fst (rows df))).
      { apply Hlabels. unfold index. apply in_map_iff. exists (lbl, v). auto. }
      apply in_map_iff in Hl as [r [E Hr]]. exists r. split; [| exact Hr].
      rewrite E, (cell_present s lbl v Hnd H). reflexivity.
  - unfold index at 1, dropna. simpl. apply strictly_sorted_filter.
    rewrite <- Hindex in Hstrict. exact Hstrict.
Qed.

(** ** The table of [main] *)

Lemma drop_rows_rows (df : DataFrame) (symbols : list string)
  (table : list (string * nat)) :
  drop_rows df symbols = Ok table ->
  forall t n, In (t, n) table ->
    In t symbols
    /\ exists col, column df t = Ok col
         /\ n = drop_count (dropna col)
         /\ (5 <= List.length (items (dropna col)))%nat.
Proof.
  revert table. induction symbols as [| sym l IH]; intros table; cbn [drop_rows].
  - intros E. injection E as <-. intros t n [].
  - destruct (column df sym) as [col |] eqn:Hcol; cbn [bind]; [| discriminate].
    destruct (drop_rows df l) as [rest |]; cbn [bind]; [| discriminate].
    destruct (Nat.ltb_spec (List.length (items (dropna col))) 5) as [Hlt | Hge];
      intros E; injection E as <-; intros t n Hin.
    + destruct (IH rest eq_refl t n Hin) as [H1 H2].
      split; [right; exact H1 | exact H2].
    + destruct Hin as [E | Hin].
      * injection E as <- <-. split; [left; reflexivity |].
        exists col. repeat split; assumption.
      * destruct (IH rest eq_refl t n Hin) as [H1 H2].
        split; [right; exact H1 | exact H2].
Qed.

(** X17.  Every row of the final table belongs to a ticker of the input
    list with a column of at least five non-missing closes; its count is
    the number of 4-step drops of 10% or more among those closes, at most
    their number less 4. *)
Theorem table_rows_are_drop_counts (symbols : list string) (closes_df : DataFrame)
  (table : list (string * nat)) (t : string) (n : nat) :
  results_df symbols closes_df = Ok table ->
  In (t, n) table ->
  In t symbols
  /\ exists col,
       column closes_df t = Ok col
       /\ n = drop_count (dropna col)
       /\ n = List.length (drop_dates (dropna col))
       /\ (5 <= List.length (items (dropna col)))%nat
       /\ (n <= List.length (items (dropna col)) - 4)%nat.
Proof.
  unfold results_df.
  destruct (drop_rows closes_df (available symbols closes_df)) as [rows_ |] eqn:Hrun;
    simpl; [| discriminate].
  destruct rows_ as [| r rows_]; simpl; [discriminate |].
  intros E Hin. injection E as <-.
  destruct (drop_rows_rows _ _ _ Hrun t n Hin) as [Ht [col [Hcol [Hn Hlen]]]].
  split.
  - unfold available in Ht. apply filter_In in Ht. apply Ht.
  - exists col. destruct (drop_count_bounds (dropna col)) as [H1 H2].
    repeat split; try assumption; subst n; [symmetry; exact H1 | exact H2].
Qed.

(** X18.  [main]'s table is never empty: when no available ticker has five
    closes, [set_index("ticker")] on the column-less frame raises
    [KeyError], and that is the only way the table construction fails. *)
Theorem no_qualifying_ticker_raises (symbols : list string) (closes_df : DataFrame) :
  (results_df symbols closes_df = Raise (KeyError "ticker") <->
     forall t, In t (available symbols closes_df) -> enough_history closes_df t = false)
  /\ (forall table, results_df symbols closes_df = Ok table -> table <> [])
  /\ (forall e, results_df symbols closes_df = Raise e -> e = KeyError "ticker").
Proof.
  destruct (drop_rows_order closes_df (available symbols closes_df)) as [table [Hrun Hfst]].
  { intros t Ht. unfold available in Ht. apply filter_In in Ht. apply Ht. }
  unfold results_df. rewrite Hrun. simpl.
  destruct table as [| r table]; simpl in *.
  - split; [| split].
    + split; [| reflexivity]. intros _ t Ht.
      destruct (enough_history closes_df t) eqn:He; [| reflexivity].
      assert (H : In t (filter (enough_history closes_df) (available symbols closes_df)))
        by (apply filter_In; auto).
      rewrite <- Hfst in H. destruct H.
    + discriminate.
    + intros e E. congruence.
  - split; [| split].
    + split; [discriminate |]. intros H. exfalso.
      assert (Hin : In (fst r) (filter (enough_history closes_df) (available symbols closes_df)))
        by (rewrite <- Hfst; left; reflexivity).
      apply filter_In in Hin as [H1 H2]. rewrite (H _ H1) in H2. discriminate.
    + intros table' E. injection E as <-. discriminate.
    + discriminate.
Qed.

Lemma fetched_rows (as_completed : list Future -> list Future)
  (client : Client) (symbols : list string) (st en : Z) (df : DataFrame)
  (table : list (string * nat)) (t : string) (n : nat) :
  (forall l, Permutation (as_completed l) l) ->
  snd (fetch_all_closes as_completed client symbols st en) = Ok df ->
  results_df symbols df = Ok table ->
  In (t, n) table ->
  In t symbols /\ is_ok (_one client st en t) = true.
Proof.
  intros Hperm Hrun. unfold results_df.
  destruct (drop_rows df (available symbols df)) as [rows_ |] eqn:Hrows;
    cbn [bind]; [| discriminate].
  destruct rows_ as [| r rows_]; cbn [set_index_ticker]; [discriminate |].
  intros E Hin. injection E as <-.
  destruct (drop_rows_rows _ _ _ Hrows t n Hin) as [Ht _].
  unfold available in Ht. apply filter_In in Ht as [Hlisted Hcol].
  split; [exact Hlisted |].
  apply existsb_exists in Hcol as [c [Hc Hteq]]. apply String.eqb_eq in Hteq. subst c.
  rewrite (fetch_all_closes_columns _ _ _ _ _ _ Hperm Hrun) in Hc.
  unfold succeeded in Hc. apply in_map_iff in Hc as [[sym r0] [Hsym Hf]].
  cbn [fst] in Hsym. subst sym. apply filter_In in Hf as [Hf Hok]. cbn [snd] in Hok.
  apply (Permutation_in _ (Hperm _)), futures_In in Hf. cbn [fst snd] in Hf.
  destruct Hf as [_ Hf]. rewrite <- Hf. exact Hok.
Qed.

(** X19.  A ticker appears in [main]'s table only if it is one of the 90
    listed tickers and its own price fetch returned a series: a failed
    fetch never contributes a row. *)
Theorem table_rows_were_fetched (as_completed : list Future -> list Future)
  (client : Client) (now : Z) (table : list (string * nat)) (t : string) (n : nat) :
  (forall l, Permutation (as_completed l) l) ->
  main as_completed client now = Ok table ->
  In (t, n) table ->
  In t tickers
  /\ is_ok (_one client (add_days now (- (365 * 2))) now t) = true.
Proof.
  intros Hperm. unfold main.
  generalize tickers. intros symbols.
  destruct (snd (fetch_all_closes as_completed client symbols
                   (add_days now (- (365 * 2))) now)) as [df |] eqn:Hrun;
    cbn [bind]; [| discriminate].
  apply (fetched_rows as_completed client symbols _ _ df table t n Hperm Hrun).
Qed.

(** ** [get_client] *)

(** X20.  [get_client] calls [easy_client] once or twice and deletes the
    token at most once.  It retries exactly when the first call raised a
    [ValueError] mentioning the token format or an [OAuthError] mentioning
    the expired code (each phrase counts for its own exception type only);
    the retry runs after the deletion was attempted, whether or not the
    deletion worked, and its outcome is returned as it is, a second such
    failure included.  Without a retry the first outcome is returned and
    nothing is deleted. *)
Theorem get_client_retries_at_most_once (World Handle : Type)
  (easy_client : World -> (Handle + auth_exn) * World)
  (os_remove : World -> bool * World) (w : World) :
  let first := easy_client w in
  let out := get_client World Handle easy_client os_remove w in
  let evs := snd out in
  (calls evs = 2%nat <-> exists e, fst first = inr e /\ retryable e = true)
  /\ (calls evs = 1%nat \/ calls evs = 2%nat)
  /\ removals evs = (calls evs - 1)%nat
  /\ (calls evs = 1%nat -> fst out = first)
  /\ (calls evs = 2%nat ->
      fst out = easy_client (snd (os_remove (snd first)))).
Proof.
  unfold get_client, delete_and_retry.
  destruct (easy_client w) as [[c | [text | text | e]] w1] eqn:Hfirst; simpl.
  - repeat split; auto; try discriminate. intros [e [E _]]. discriminate.
  - destruct (contains "token format has changed" text) eqn:Hc.
    + destruct (os_remove w1) as [done w2]. simpl.
      destruct (easy_client w2) as [r2 w3]. simpl.
      repeat split; auto; try discriminate. intros _. eexists. split; [reflexivity | exact Hc].
    + simpl. repeat split; auto; try discriminate.
      intros [e [E H]]. injection E as <-. simpl in H. congruence.
  - destruct (contains "AuthorizationCode has expired" text) eqn:Hc.
    + destruct (os_remove w1) as [done w2]. simpl.
      destruct (easy_client w2) as [r2 w3]. simpl.
      repeat split; auto; try discriminate. intros _. eexists. split; [reflexivity | exact Hc].
    + simpl. repeat split; auto; try discriminate.
      intros [e [E H]]. injection E as <-. simpl in H. congruence.
  - repeat split; auto; try discriminate.
    intros [e' [E H]]. injection E as <-. discriminate.
Qed.

(** ** [filter_large_caps] *)

Section FilterFacts.
Variable info : string -> result CapField.
Variable sleep : float -> result unit.

Lemma filter_loop_run (tickers_ : list string) (min_market_cap pause : float)
  (large : list string) (naps : nat) :
  sleep pause = Ok tt ->
  filter_loop info sleep tickers_ min_market_cap pause large naps
  = (Ok (large ++ filter (fun t => cap_passes min_market_cap (info t)) tickers_),
     (naps + List.length tickers_)%nat).
Proof.
  intros Hsleep. revert large naps.
  induction tickers_ as [| t l IH]; intros large naps; simpl.
  - rewrite app_nil_r, Nat.add_0_r. reflexivity.
  - rewrite Hsleep, IH.
    destruct (cap_passes min_market_cap (info t)); simpl.
    + rewrite <- app_assoc. simpl. f_equal. lia.
    + f_equal. lia.
Qed.

(** X21.  With a pause [sleep] accepts, [filter_large_caps] never raises:
    it returns, in input order, exactly the tickers whose info call
    succeeded with a market cap that is a number at least [min_market_cap]
    (or with no market cap at all when [min_market_cap <= 0]), and it
    sleeps once per ticker, the failed ones included. *)
Theorem filter_large_caps_keeps_passing (tickers_ : list string)
  (min_market_cap pause : float) (max_retries : Z) :
  sleep pause = Ok tt ->
  filter_large_caps info sleep tickers_ min_market_cap pause max_retries
  = (Ok (filter (fun t => cap_passes min_market_cap (info t)) tickers_),
     List.length tickers_).
Proof.
  intros Hsleep. unfold filter_large_caps.
  rewrite (filter_loop_run _ _ _ _ _ Hsleep). reflexivity.
Qed.

(** X22.  The [sleep] sits in a [finally] clause, outside the [try]: when
    it raises (a negative pause), the exception leaves the function at the
    first ticker, after a single call of [sleep], whatever the ticker's
    info. *)
Theorem filter_large_caps_bad_pause (t : string) (rest : list string)
  (min_market_cap pause : float) (max_retries : Z) (e : exn) :
  sleep pause = Raise e ->
  filter_large_caps info sleep (t :: rest) min_market_cap pause max_retries
  = (Raise e, 1%nat).
Proof.
  intros Hsleep. unfold filter_large_caps. simpl. rewrite Hsleep. reflexivity.
Qed.

End FilterFacts.

(** ** The further statements on the worked payloads *)

Lemma rows_are_sorted_union_sample :
  exists df,
    snd (fetch_all_closes (@rev Future) mixed_client ["A"; "B"; "C"]%string 0 0) = Ok df
    /\ StronglySorted Z.lt (map fst (rows df))
    /\ (forall lbl, In lbl (map fst (rows df)) <->
          exists sym s, In sym ["A"; "B"; "C"]%string
            /\ _one mixed_client 0 0 sym = Ok s
            /\ In lbl (index s)).
Proof.
  apply (rows_are_sorted_union (@rev Future) mixed_client ["A"; "B"; "C"]%string 0 0).
  - intros l. apply Permutation_sym, Permutation_rev.
  - exists "A"%string. eexists. split; [left; reflexivity | reflexivity].
  - intros sym s [<- | [<- | [<- | []]]] E; vm_compute in E; try discriminate E;
      injection E as <-; reflexivity.
Defined.

Lemma table_depends_on_order_by_columns_only_sample :
  exists df1 df2,
    snd (fetch_all_closes (fun done => done) mixed_client ["A"; "B"; "C"]%string 0 0) = Ok df1
    /\ snd (fetch_all_closes (@rev Future) mixed_client ["A"; "B"; "C"]%string 0 0) = Ok df2
    /\ map fst (rows df1) = map fst (rows df2)
    /\ Permutation (columns df1) (columns df2).
Proof.
  apply (table_depends_on_order_by_columns_only (fun done => done) (@rev Future)
           mixed_client ["A"; "B"; "C"]%string 0 0).
  - intros l. apply Permutation_refl.
  - intros l. apply Permutation_sym, Permutation_rev.
  - exists "A"%string. eexists. split; [left; reflexivity | reflexivity].
  - intros sym s [<- | [<- | [<- | []]]] E; vm_compute in E; try discriminate E;
      injection E as <-; reflexivity.
Defined.

Lemma failures_reported_individually_sample :
  (In ("C"%string, ConnectionError)
      (fst (fetch_all_closes (@rev Future) mixed_client ["A"; "B"; "C"]%string 0 0))
   <-> In "C"%string ["A"; "B"; "C"]%string
       /\ _one mixed_client 0 0 "C" = Raise ConnectionError)
  /\ List.length (fst (fetch_all_closes (@rev Future) mixed_client ["A"; "B"; "C"]%string 0 0))
     = List.length
         (filter (fun s => negb (is_ok (_one mixed_client 0 0 s))) ["A"; "B"; "C"]%string).
Proof.
  apply (failures_reported_individually (@rev Future) mixed_client
           ["A"; "B"; "C"]%string 0 0 "C" ConnectionError).
  intros l. apply Permutation_sym, Permutation_rev.
Defined.

Lemma every_fetch_failing_raises_sample :
  snd (fetch_all_closes (@rev Future) mixed_client ["C"; "D"]%string 0 0)
  = Raise (ValueError "No objects to concatenate").
Proof.
  apply (every_fetch_failing_raises (@rev Future) mixed_client ["C"; "D"]%string 0 0).
  - intros l. apply Permutation_sym, Permutation_rev.
  - intros sym [<- | [<- | []]]; reflexivity.
Defined.

Lemma column_recovers_series_sample :
  exists df col,
    snd (fetch_all_closes (@rev Future) mixed_client ["A"; "B"; "C"]%string 0 0) = Ok df
    /\ column df "A" = Ok col
    /\ index col = map fst (rows df)
    /\ (forall lbl v, In (lbl, v) (items col) ->
          In (lbl, v) [(day 3, 30%float); (day 1, 10%float)]
          \/ (~ In lbl (index (mkSeries "A" [(day 3, 30%float); (day 1, 10%float)]))
              /\ v = nan))
    /\ (forall p, In p (items (dropna col)) <->
          In p (items (dropna (mkSeries "A" [(day 3, 30%float); (day 1, 10%float)]))))
    /\ StronglySorted Z.lt (index (dropna col)).
Proof.
  apply (column_recovers_series (@rev Future) mixed_client ["A"; "B"; "C"]%string 0 0
           "A" (mkSeries "A" [(day 3, 30%float); (day 1, 10%float)])).
  - intros l. apply Permutation_sym, Permutation_rev.
  - repeat constructor; simpl; intuition discriminate.
  - left. reflexivity.
  - vm_compute. reflexivity.
  - intros sym s [<- | [<- | [<- | []]]] E; vm_compute in E; try discriminate E;
      injection E as <-; reflexivity.
Defined.

(** The table of the three-ticker run: A and B side by side on the union
    of their days, C absent. *)
Example mixed_table :
  snd (fetch_all_closes (fun done => done) mixed_client ["A"; "B"; "C"]%string 0 0)
  = Ok (mkFrame ["A"; "B"]%string
          [(day 1, [10%float; nan]); (day 2, [nan; 20%float]);
           (day 3, [30%float; 31%float])]).
Proof. vm_compute. reflexivity. Qed.

Lemma table_rows_are_drop_counts_sample :
  In "AAPL"%string ["AAPL"; "ZZZ"]%string
  /\ exists col,
       column (mkFrame ["AAPL"]%string
                 (map (fun c => (datetime c, [close c])) sample_candles)) "AAPL" = Ok col
       /\ 1%nat = drop_count (dropna col)
       /\ 1%nat = List.length (drop_dates (dropna col))
       /\ (5 <= List.length (items (dropna col)))%nat
       /\ (1 <= List.length (items (dropna col)) - 4)%nat.
Proof.
  apply (table_rows_are_drop_counts ["AAPL"; "ZZZ"]%string
           (mkFrame ["AAPL"]%string (map (fun c => (datetime c, [close c])) sample_candles))
           [("AAPL"%string, 1%nat)] "AAPL" 1%nat).
  - vm_compute. reflexivity.
  - left. reflexivity.
Defined.

Lemma table_rows_were_fetched_sample :
  In "AAPL"%string tickers
  /\ is_ok (_one sample_client (add_days 0 (- (365 * 2))) 0 "AAPL") = true.
Proof.
  apply (table_rows_were_fetched (fun done => done) sample_client 0
           (map (fun t => (t, 1%nat)) tickers) "AAPL" 1%nat).
  - intros l. apply Permutation_refl.
  - vm_compute. reflexivity.
  - left. reflexivity.
Defined.

Lemma filter_large_caps_keeps_passing_sample :
  filter_large_caps sample_info sample_sleep
    ["BIG"; "SMALL"; "NOCAP"; "NULL"; "GONE"; "BIG"]%string 3e9%float 1%float 5
  = (Ok (filter (fun t => cap_passes 3e9%float (sample_info t))
           ["BIG"; "SMALL"; "NOCAP"; "NULL"; "GONE"; "BIG"]%string),
     6%nat).
Proof.
  apply (filter_large_caps_keeps_passing sample_info sample_sleep
           ["BIG"; "SMALL"; "NOCAP"; "NULL"; "GONE"; "BIG"]%string 3e9%float 1%float 5).
  reflexivity.
Defined.

Example filter_large_caps_run :
  filter_large_caps sample_info sample_sleep
    ["BIG"; "SMALL"; "NOCAP"; "NULL"; "GONE"; "BIG"]%string 3e9%float 1%float 5
  = (Ok ["BIG"; "BIG"]%string, 6%nat).
Proof. vm_compute. reflexivity. Qed.

Lemma filter_large_caps_bad_pause_sample :
  filter_large_caps sample_info sample_sleep ["BIG"; "SMALL"]%string 3e9%float (-1)%float 5
  = (Raise (ValueError "sleep length must be non-negative"), 1%nat).
Proof.
  apply (filter_large_caps_bad_pause sample_info sample_sleep "BIG" ["SMALL"]%string
           3e9%float (-1)%float 5).
  reflexivity.
Defined.
